(** * Schema-driven validation of resource instances

    A shallow embedding of [scripts/validate_resource_instances.py]: the type
    grammar ([parse_type]), the schema compiler ([parse_stats_file]), the
    schema registry and the recursive validator ([validate_resource_instance]
    and [validate_value]), followed by the properties the specification
    states about them. *)

From Stdlib Require Import ZArith NArith List Ascii String DecimalString Floats.SpecFloat Lia.
From stdpp Require Import base option list gmap.

Local Open Scope N_scope.

(** ** Python strings

    A Python [str] is a sequence of Unicode code points.  The grammar of the
    schema files depends on the Unicode whitespace class, so a string is
    modelled as the list of its code points rather than as bytes. *)

Module PyStr.

Abbreviation char := N.
Abbreviation pystr := (list N).

(** [py "text"] is the Python literal ["text"] (ASCII literals only). *)
Fixpoint py (s : string) : pystr :=
  match s with
  | EmptyString => []
  | String a rest => N_of_ascii a :: py rest
  end.

(** [a == b] on two [str] values. *)
Definition str_eqb (a b : pystr) : bool := bool_decide (a = b).

(** [s.startswith(prefix)] *)
Definition startswith (s prefix : pystr) : bool :=
  str_eqb (take (length prefix) s) prefix.

(** [s.endswith(suffix)] *)
Definition endswith (s suffix : pystr) : bool :=
  (length suffix <=? length s)%nat
  && str_eqb (drop (length s - length suffix) s) suffix.

(** [s[start:-k]] for a literal [k > 0]: Python clamps the negative stop
    index at [0], which is what truncated subtraction does. *)
Definition slice_to_end_minus (start k : nat) (s : pystr) : pystr :=
  drop start (take (length s - k) s).

(** [str.isspace] on one code point, which is also the class [\s] of [re]
    on [str] patterns and the set [str.strip()] removes. *)
Definition is_space (c : char) : bool :=
  ((9 <=? c) && (c <=? 13))
  || ((28 <=? c) && (c <=? 32))
  || (c =? 133) || (c =? 160) || (c =? 5760)
  || ((8192 <=? c) && (c <=? 8202))
  || (c =? 8232) || (c =? 8233) || (c =? 8239) || (c =? 8287)
  || (c =? 12288).

(** The class [[A-Za-z0-9_]]. *)
Definition is_ident_char (c : char) : bool :=
  ((65 <=? c) && (c <=? 90))
  || ((97 <=? c) && (c <=? 122))
  || ((48 <=? c) && (c <=? 57))
  || (c =? 95).

Fixpoint lstrip (s : pystr) : pystr :=
  match s with
  | c :: rest => if is_space c then lstrip rest else s
  | [] => []
  end.

Definition rstrip (s : pystr) : pystr := rev (lstrip (rev s)).

(** [s.strip()] *)
Definition strip (s : pystr) : pystr := rstrip (lstrip s).

(** [sep.join(parts)] *)
Fixpoint join (sep : pystr) (parts : list pystr) : pystr :=
  match parts with
  | [] => []
  | [p] => p
  | p :: rest => p ++ sep ++ join sep rest
  end.

(** Decimal rendering of a non-negative index, as [f"{idx}"] does. *)
Definition str_of_nat (n : nat) : pystr :=
  py (NilZero.string_of_uint (Nat.to_uint n)).

End PyStr.
Import PyStr.

(** ** Type descriptors and the type grammar *)

(** [@dataclass(frozen=True) class StatType] *)
Record StatType := mkStatType {
  kind : pystr;
  is_array : bool;
  resource_type : option pystr;
}.

(** [StatType.element_type] *)
Definition element_type (self : StatType) : StatType :=
  mkStatType (kind self) false (resource_type self).

(** [core in {"string", "bool", "integer", "photo"}] *)
Definition is_primitive_name (core : pystr) : bool :=
  str_eqb core (py "string") || str_eqb core (py "bool")
  || str_eqb core (py "integer") || str_eqb core (py "photo").

Definition parse_type (type_token : pystr) : StatType :=
  let is_array := endswith type_token (py "[]") in
  let core := if is_array then slice_to_end_minus 0 2 type_token else type_token in
  if startswith core (py "resource<") && endswith core (py ">") then
    mkStatType (py "resource") is_array
               (Some (slice_to_end_minus (length (py "resource<")) 1 core))
  else if str_eqb core (py "resource") then
    mkStatType (py "resource") is_array None
  else if is_primitive_name core then
    mkStatType core is_array None
  else
    mkStatType (py "unknown") is_array None.

(** ** The schema compiler *)

(** A schema maps statistic names to descriptors; the registry maps resource
    identifiers to schemas.  Both are Python dicts read with [get] only. *)
Abbreviation Schema := (gmap pystr StatType).
Abbreviation Registry := (gmap pystr (gmap pystr StatType)).

(** [span p s] splits [s] after its longest prefix of characters in [p]:
    what a greedy [p+] or [p*] consumes. *)
Fixpoint span (p : char -> bool) (s : pystr) : pystr * pystr :=
  match s with
  | c :: rest =>
      if p c then let (taken, left) := span p rest in (c :: taken, left)
      else ([], s)
  | [] => ([], [])
  end.

Definition non_space (c : char) : bool := negb (is_space c).

(** The pieces of a successful match of [BASE_STAT_PATTERN]. *)
Record base_match := mkBaseMatch {
  group1 : pystr;        (* the type token, [([^\s]+)] *)
  group2 : pystr;        (* the statistic name, [([A-Za-z0-9_]+)] *)
  gap : pystr;           (* what [\s*] consumed before the parenthesis *)
  tail : pystr;          (* the text after the parenthesis, not matched *)
}.

(** [BASE_STAT_PATTERN.match(s)] for
    [^base\s+([^\s]+)\s+([A-Za-z0-9_]+)\s*\(].  Each repetition is followed
    by an element that accepts none of the characters the repetition
    accepts, so the greedy choice is the only one that can succeed and the
    matcher never has to backtrack. *)
Definition BASE_STAT_PATTERN_match (s : pystr) : option base_match :=
  if startswith s (py "base") then
    let s1 := drop 4 s in
    let (ws1, s2) := span is_space s1 in
    if bool_decide (ws1 = []) then None else
    let (tok, s3) := span non_space s2 in
    if bool_decide (tok = []) then None else
    let (ws2, s4) := span is_space s3 in
    if bool_decide (ws2 = []) then None else
    let (name, s5) := span is_ident_char s4 in
    if bool_decide (name = []) then None else
    let (ws3, s6) := span is_space s5 in
    match s6 with
    | c :: rest => if c =? 40 then Some (mkBaseMatch tok name ws3 rest) else None
    | [] => None
    end
  else None.

(** One iteration of the loop of [parse_stats_file]: the declaration a line
    contributes, if any. *)
Definition declaration (line : pystr) : option (pystr * pystr) :=
  let stripped := strip line in
  if negb (startswith stripped (py "base ")) then None
  else match BASE_STAT_PATTERN_match stripped with
       | None => None
       | Some m => Some (group1 m, group2 m)
       end.

(** [parse_stats_file], from the lines [path.read_text(...).splitlines()]. *)
Definition parse_stats_file (lines : list pystr) : Schema :=
  fold_left
    (fun (stats : Schema) line =>
       match declaration line with
       | None => stats
       | Some (type_token, stat_name) => <[stat_name := parse_type type_token]> stats
       end)
    lines ∅.

(** [load_schema], from the directories [os.walk] visits that hold a
    [stats.rpgs], each given by its name and the lines of that file. *)
Definition load_schema (resources : list (pystr * list pystr)) : Registry :=
  fold_left
    (fun (schema : Registry) '(resource_id, lines) =>
       <[resource_id := parse_stats_file lines]> schema)
    resources ∅.


(** ** Instance documents *)

(** A decoded JSON value, as [json.loads] returns it: [None], [bool], [int],
    [float], [str], [list] or [dict].  A dict keeps its items in insertion
    order, which is the order [stats.items()] yields them. *)
#[warnings="-register-all"]
Inductive json :=
| JNull
| JBool (b : bool)
| JInt (n : Z)
| JFloat (x : spec_float)
| JStr (s : pystr)
| JList (items : list json)
| JDict (items : list (pystr * json)).

(** [type(value).__name__] *)
Definition type_name (value : json) : pystr :=
  match value with
  | JNull => py "NoneType"
  | JBool _ => py "bool"
  | JInt _ => py "int"
  | JFloat _ => py "float"
  | JStr _ => py "str"
  | JList _ => py "list"
  | JDict _ => py "dict"
  end.

(** [isinstance(value, (int, float))]: [bool] is a subclass of [int]. *)
Definition isinstance_int_float (value : json) : bool :=
  match value with
  | JBool _ | JInt _ | JFloat _ => true
  | _ => false
  end.

(** [value is None] *)
Definition is_none (value : json) : bool :=
  match value with JNull => true | _ => false end.

Definition isinstance_bool (value : json) : bool :=
  match value with JBool _ => true | _ => false end.

Definition isinstance_str (value : json) : bool :=
  match value with JStr _ => true | _ => false end.

(** [value == text] for a [str] [text]: only an equal [str] compares equal. *)
Definition eq_str (value : json) (text : pystr) : bool :=
  match value with JStr s => str_eqb s text | _ => false end.

(** Looking a key up in the items of a dict and continuing with [found] on
    its value, or with [missing] when the key is absent.  The validator
    recurses on what it finds under ["stats"] and ["value"]; written this
    way the value it recurses on is visibly a part of the dict, and the
    recursion is structural. *)
Definition dict_get_then {A} (key : pystr) (found : json -> A) (missing : A)
  : list (pystr * json) -> A :=
  fix lookup_in d :=
    match d with
    | [] => missing
    | (k, v) :: rest => if str_eqb k key then found v else lookup_in rest
    end.

(** [d.get(key)]: [None] when the key is absent.  The items of a decoded
    dict have distinct keys; the lookup returns the first item of the key. *)
Definition dict_get (key : pystr) (d : list (pystr * json)) : json :=
  dict_get_then key (fun v => v) JNull d.

(** [key in d] *)
Definition dict_contains (key : pystr) (d : list (pystr * json)) : bool :=
  dict_get_then key (fun _ => true) false d.

(** ** Located errors *)

(** The message of an error.  All messages are fixed texts around a type
    name, except the resource-kind mismatch, whose text renders an arbitrary
    value: [f"Expected resource_id '{expected}', got '{actual}'"]. *)
Inductive message :=
| Msg (text : pystr)
| MsgExpectedResourceId (expected : pystr) (actual : json).

(** One entry of [errors].  The source renders it as
    [f"{display_path(file_path, repo_root)}: {location}: {message}"]; the
    record keeps the two paths [display_path] is computed from. *)
Record error := mkError {
  err_file : pystr;
  err_repo_root : pystr;
  err_location : pystr;
  err_message : message;
}.

Definition format_path (path_stack : list pystr) : pystr :=
  match path_stack with
  | [] => py "<root>"
  | _ => join (py " -> ") path_stack
  end.

(** The two objects a validation run shares by reference: the registry and
    the list of errors. *)
Record store := mkStore {
  st_schema : Registry;
  st_errors : list error;
}.

(** [add_error], with the entry kept as the pieces of its text; the
    rendering of the text, which calls [display_path], is in [add_error_io]
    below. *)
Definition add_error (σ : store) (file_path repo_root : pystr)
    (path_stack : list pystr) (msg : message) : store :=
  let location := format_path path_stack in
  mkStore (st_schema σ)
          (st_errors σ ++ [mkError file_path repo_root location msg]).

(** ** The validation engine *)

(** [META_STATS] *)
Definition META_STATS : list pystr := [py "id"; py "updated_at"].

Definition resource_label (resource_obj : list (pystr * json)) : pystr :=
  let rid := dict_get (py "resource_id") resource_obj in
  let stats := dict_get (py "stats") resource_obj in
  let rid_text :=
    match rid with
    | JStr rid => py "resource_id='" ++ rid ++ py "'"
    | _ => py "resource_id<?>"
    end in
  match stats with
  | JDict stats =>
      match dict_get (py "id") stats with
      | JStr stat_id =>
          if bool_decide (stat_id = []) then rid_text
          else rid_text ++ py " (id='" ++ stat_id ++ py "')"
      | _ => rid_text
      end
  | _ => rid_text
  end.

(** [for idx, item in enumerate(items): body], counting from [idx], on the
    state [σ] the body updates. *)
Definition for_enumerate {A S} (body : nat -> A -> S -> S)
  : list A -> nat -> S -> S :=
  fix each items idx σ :=
    match items with
    | [] => σ
    | item :: rest => each rest (Datatypes.S idx) (body idx item σ)
    end.

Section ResourceInstance.

(** [validate_resource_instance] and [validate_value] call each other, and
    [validate_value] passes its own argument on.  The body of
    [validate_resource_instance] is therefore written over the value checker
    it calls back into, and the knot is tied after [validate_value]. *)
Variable validate_value :
  json -> StatType -> pystr -> pystr -> list pystr -> store -> store.

(** The body of the loop over [stats.items()]. *)
Definition validate_stat (stats_schema : Schema) (file_path repo_root : pystr)
    (current_stack : list pystr) (σ : store)
    (stat_name : pystr) (stat_value : json) : store :=
  if bool_decide (stat_name ∈ META_STATS) then σ
  else match stats_schema !! stat_name with
       | None =>
           add_error σ file_path repo_root
             (current_stack ++ [py "stats." ++ stat_name])
             (Msg (py "Unknown stat for this resource"))
       | Some stat_type =>
           let malformed :=
             add_error σ file_path repo_root
               (current_stack ++ [py "stats." ++ stat_name])
               (Msg (py "Expected an object with a 'value' field")) in
           match stat_value with
           | JDict entry =>
               dict_get_then (py "value")
                 (fun value =>
                    validate_value value stat_type file_path repo_root
                      (current_stack ++ [py "stats." ++ stat_name ++ py ".value"]) σ)
                 malformed entry
           | _ => malformed
           end
       end.

Definition validate_resource_instance_with (resource_obj : json)
    (file_path repo_root : pystr) (path_stack : list pystr) (σ : store) : store :=
  match resource_obj with
  | JDict obj =>
      match dict_get (py "resource_id") obj with
      | JStr rid =>
          if bool_decide (rid = []) then
            add_error σ file_path repo_root path_stack
              (Msg (py "Missing or invalid resource_id"))
          else
            match st_schema σ !! rid with
            | None =>
                add_error σ file_path repo_root
                  (path_stack ++ [py "resource_id='" ++ rid ++ py "'"])
                  (Msg (py "Unknown resource_id (no stats.rpgs found)"))
            | Some stats_schema =>
                let invalid_stats stats :=
                  add_error σ file_path repo_root
                    (path_stack ++ [resource_label obj])
                    (Msg (py "Missing or invalid stats object, got " ++ type_name stats)) in
                dict_get_then (py "stats")
                  (fun stats =>
                     match stats with
                     | JDict stats =>
                         let current_stack := path_stack ++ [resource_label obj] in
                         fold_left
                           (fun σ '(stat_name, stat_value) =>
                              validate_stat stats_schema file_path repo_root
                                current_stack σ stat_name stat_value)
                           stats σ
                     | _ => invalid_stats stats
                     end)
                  (invalid_stats JNull) obj
            end
      | _ =>
          add_error σ file_path repo_root path_stack
            (Msg (py "Missing or invalid resource_id"))
      end
  | _ =>
      add_error σ file_path repo_root path_stack
        (Msg (py "Expected object for resource, got " ++ type_name resource_obj))
  end.

End ResourceInstance.

Fixpoint validate_value (value : json) (stat_type : StatType)
    (file_path repo_root : pystr) (path_stack : list pystr) (σ : store)
    {struct value} : store :=
  match value with
  | JNull => σ
  | _ =>
    if is_array stat_type then
      match value with
      | JList items =>
          let element_type := element_type stat_type in
          for_enumerate
            (fun idx item σ =>
               if is_none item && str_eqb (kind element_type) (py "resource") then σ
               else validate_value item element_type file_path repo_root
                      (path_stack ++ [py "[" ++ str_of_nat idx ++ py "]"]) σ)
            items 0%nat σ
      | _ =>
          add_error σ file_path repo_root path_stack
            (Msg (py "Expected array, got " ++ type_name value))
      end
    else
      let kind := kind stat_type in
      if str_eqb kind (py "unknown") then σ
      else if str_eqb kind (py "string") then
        if negb (isinstance_str value) then
          add_error σ file_path repo_root path_stack
            (Msg (py "Expected string, got " ++ type_name value))
        else σ
      else if str_eqb kind (py "bool") then
        if negb (isinstance_bool value) then
          add_error σ file_path repo_root path_stack
            (Msg (py "Expected bool, got " ++ type_name value))
        else σ
      else if str_eqb kind (py "integer") then
        if isinstance_bool value || negb (isinstance_int_float value) then
          add_error σ file_path repo_root path_stack
            (Msg (py "Expected number, got " ++ type_name value))
        else σ
      else if str_eqb kind (py "photo") then
        match value with
        | JDict photo =>
            if dict_contains (py "url") photo
               && negb (isinstance_str (dict_get (py "url") photo)) then
              add_error σ file_path repo_root (path_stack ++ [py "url"])
                (Msg (py "Expected url string, got "
                      ++ type_name (dict_get (py "url") photo)))
            else σ
        | _ =>
            add_error σ file_path repo_root path_stack
              (Msg (py "Expected photo object, got " ++ type_name value))
        end
      else if str_eqb kind (py "resource") then
        match value with
        | JDict obj =>
            let expected := resource_type stat_type in
            let actual := dict_get (py "resource_id") obj in
            let σ :=
              match expected with
              | Some expected =>
                  if negb (bool_decide (expected = []))
                     && negb (eq_str actual expected) then
                    add_error σ file_path repo_root path_stack
                      (MsgExpectedResourceId expected actual)
                  else σ
              | None => σ
              end in
            validate_resource_instance_with validate_value value
              file_path repo_root path_stack σ
        | _ =>
            add_error σ file_path repo_root path_stack
              (Msg (py "Expected resource object, got " ++ type_name value))
        end
      else σ
  end.

Definition validate_resource_instance :=
  validate_resource_instance_with validate_value.

(** ** The run over the instance files *)

(** What [read_json] gave for one file: the decoded document, or the text of
    the exception it raised. *)
Inductive read_result :=
| ReadOk (data : json)
| ReadFailed (exc : pystr).

(** The body of the loop of [main] over [instance_files]. *)
Definition validate_file (repo_root : pystr) (σ : store)
    (file : pystr * read_result) : store :=
  let (path, read) := file in
  match read with
  | ReadFailed exc =>
      add_error σ path repo_root [] (Msg (py "Failed to parse JSON: " ++ exc))
  | ReadOk data => validate_resource_instance data path repo_root [] σ
  end.

Definition validate_files (repo_root : pystr)
    (instance_files : list (pystr * read_result)) (σ : store) : store :=
  fold_left (validate_file repo_root) instance_files σ.


(** ** The validator without the fast path for null array elements

    [validate_value] with the test [item is None and element_type.kind ==
    "resource"] taken out of the array loop, so that every element, null or
    not, goes through the generic check.  Everything else is as in
    [validate_value]. *)
Fixpoint validate_value_no_fast_path (value : json) (stat_type : StatType)
    (file_path repo_root : pystr) (path_stack : list pystr) (σ : store)
    {struct value} : store :=
  match value with
  | JNull => σ
  | _ =>
    if is_array stat_type then
      match value with
      | JList items =>
          let element_type := element_type stat_type in
          for_enumerate
            (fun idx item σ =>
               validate_value_no_fast_path item element_type file_path repo_root
                 (path_stack ++ [py "[" ++ str_of_nat idx ++ py "]"]) σ)
            items 0%nat σ
      | _ =>
          add_error σ file_path repo_root path_stack
            (Msg (py "Expected array, got " ++ type_name value))
      end
    else
      let kind := kind stat_type in
      if str_eqb kind (py "unknown") then σ
      else if str_eqb kind (py "string") then
        if negb (isinstance_str value) then
          add_error σ file_path repo_root path_stack
            (Msg (py "Expected string, got " ++ type_name value))
        else σ
      else if str_eqb kind (py "bool") then
        if negb (isinstance_bool value) then
          add_error σ file_path repo_root path_stack
            (Msg (py "Expected bool, got " ++ type_name value))
        else σ
      else if str_eqb kind (py "integer") then
        if isinstance_bool value || negb (isinstance_int_float value) then
          add_error σ file_path repo_root path_stack
            (Msg (py "Expected number, got " ++ type_name value))
        else σ
      else if str_eqb kind (py "photo") then
        match value with
        | JDict photo =>
            if dict_contains (py "url") photo
               && negb (isinstance_str (dict_get (py "url") photo)) then
              add_error σ file_path repo_root (path_stack ++ [py "url"])
                (Msg (py "Expected url string, got "
                      ++ type_name (dict_get (py "url") photo)))
            else σ
        | _ =>
            add_error σ file_path repo_root path_stack
              (Msg (py "Expected photo object, got " ++ type_name value))
        end
      else if str_eqb kind (py "resource") then
        match value with
        | JDict obj =>
            let expected := resource_type stat_type in
            let actual := dict_get (py "resource_id") obj in
            let σ :=
              match expected with
              | Some expected =>
                  if negb (bool_decide (expected = []))
                     && negb (eq_str actual expected) then
                    add_error σ file_path repo_root path_stack
                      (MsgExpectedResourceId expected actual)
                  else σ
              | None => σ
              end in
            validate_resource_instance_with validate_value_no_fast_path value
              file_path repo_root path_stack σ
        | _ =>
            add_error σ file_path repo_root path_stack
              (Msg (py "Expected resource object, got " ++ type_name value))
        end
      else σ
  end.

(** ** Vocabulary of the statements *)

(** The number of nodes of a document, the measure the recursion of the
    validator decreases. *)
Fixpoint json_size (value : json) : nat :=
  match value with
  | JList items => S (list_sum (map json_size items))
  | JDict items => S (list_sum (map (fun kv => json_size (snd kv)) items))
  | _ => 1%nat
  end.

(** [σ'] is [σ] with the same registry and some errors appended. *)
Definition extends (σ σ' : store) : Prop :=
  st_schema σ' = st_schema σ /\ exists new, st_errors σ' = st_errors σ ++ new.

Definition all_space (s : pystr) : Prop := Forall (fun c => is_space c = true) s.
Definition all_non_space (s : pystr) : Prop := Forall (fun c => is_space c = false) s.
Definition all_ident (s : pystr) : Prop := Forall (fun c => is_ident_char c = true) s.

(** [s] does not start with a character of the class [p]. *)
Definition stops (p : char -> bool) (s : pystr) : Prop :=
  match s with
  | [] => True
  | c :: _ => p c = false
  end.

(** The text [s] reads: the keyword [base], whitespace [ws1], a type token
    [tok] without whitespace, whitespace [ws2], an identifier [name],
    whitespace [ws3] (possibly none), an opening parenthesis, then [rest]. *)
Definition base_shape (s ws1 tok ws2 name ws3 rest : pystr) : Prop :=
  s = py "base" ++ ws1 ++ tok ++ ws2 ++ name ++ ws3 ++ py "(" ++ rest
  /\ ws1 <> [] /\ all_space ws1
  /\ tok <> [] /\ all_non_space tok
  /\ ws2 <> [] /\ all_space ws2
  /\ name <> [] /\ all_ident name
  /\ all_space ws3.

(** The pattern as the specification words it, on the line as written: the
    identifier is followed immediately by the parenthesis. *)
Definition spec_declaration_line (line tok name : pystr) : Prop :=
  exists ws1 ws2 rest, base_shape line ws1 tok ws2 name [] rest.

(** The lines the code takes a declaration from: after stripping, the
    keyword is followed by a space character, and whitespace may separate
    the identifier from the parenthesis. *)
Definition code_declaration_line (line tok name : pystr) : Prop :=
  exists ws1 ws2 ws3 rest,
    base_shape (strip line) (32 :: ws1) tok ws2 name ws3 rest.

(** The type token of the last line of [lines] that declares [name]. *)
Definition last_declared (name : pystr) (lines : list pystr) : option pystr :=
  last (omap (fun line =>
                match declaration line with
                | Some (tok, n) => if str_eqb n name then Some tok else None
                | None => None
                end) lines).

(** ** Sample schemas and documents *)

(** The registry [{orc: {hp: integer}}]. *)
Definition orc_registry : Registry :=
  {[ py "orc" := {[ py "hp" := parse_type (py "integer") ]} ]}.

(** [{"resource_id": "orc", "stats": {"hp": {"value": true}}}] *)
Definition orc_document : json :=
  JDict [(py "resource_id", JStr (py "orc"));
         (py "stats", JDict [(py "hp", JDict [(py "value", JBool true)])])].

(** The registry [{hero: {weapon: resource<sword>}, sword: {}}]. *)
Definition hero_registry : Registry :=
  {[ py "hero" := {[ py "weapon" := parse_type (py "resource<sword>") ]};
     py "sword" := ∅ ]}.

(** [{"resource_id": "axe", "stats": {}}] *)
Definition axe_document : json :=
  JDict [(py "resource_id", JStr (py "axe")); (py "stats", JDict [])].

(** [{"resource_id": "sword", "stats": {}}] *)
Definition sword_document : json :=
  JDict [(py "resource_id", JStr (py "sword")); (py "stats", JDict [])].

(** The registry [{hero: {weapon: resource<>}, sword: {}}]. *)
Definition open_hero_registry : Registry :=
  {[ py "hero" := {[ py "weapon" := parse_type (py "resource<>") ]};
     py "sword" := ∅ ]}.

(** [{"resource_id": "hero", "stats": {"weapon": {"value":
      {"resource_id": "sword", "stats": {}}}}}] *)
Definition hero_document : json :=
  JDict [(py "resource_id", JStr (py "hero"));
         (py "stats", JDict [(py "weapon", JDict [(py "value", sword_document)])])].

(** The error for a [resource_id] without a schema. *)
Definition unknown_resource_id (file_path repo_root : pystr)
    (path_stack : list pystr) (rid : pystr) : error :=
  mkError file_path repo_root
    (format_path (path_stack ++ [py "resource_id='" ++ rid ++ py "'"]))
    (Msg (py "Unknown resource_id (no stats.rpgs found)")).

(** The float [1.5], as [3 * 2^-1]. *)
Definition one_and_a_half : spec_float := S754_finite false 3 (-1).


(** ** Error reports as the script renders them

    [add_error] above keeps an error as the pieces of its text.  The script
    renders the text when it appends the error, and rendering calls
    [display_path], which asks the file system.  This section is the
    validator once more, on the list of [str] the script holds and with the
    accesses to the file system it makes. *)

(** An access to the file system: [Path.resolve()] on the path of this
    text. *)
Inductive fs_read :=
| Resolve (path : pystr).

(** The registry, the list [errors] as the script holds it, and the accesses
    to the file system made so far. *)
Record world := mkWorld {
  w_schema : Registry;
  w_errors : list pystr;
  w_reads : list fs_read;
}.

Section Rendering.

(** What the script takes from Python: [Path.resolve], which the file
    system answers, [Path.relative_to] with [None] for its [ValueError],
    both on paths given by their text, and [str] of a decoded value. *)
Variable resolve : pystr -> pystr.
Variable relative_to : pystr -> pystr -> option pystr.
Variable str_of_value : json -> pystr.

(** [display_path], with the accesses of its two [resolve()] in the order
    they are evaluated. *)
Definition display_path (path repo_root : pystr) : pystr * list fs_read :=
  let resolved := resolve path in
  let resolved_root := resolve repo_root in
  (match relative_to resolved resolved_root with
   | Some relative => relative
   | None => path
   end,
   [Resolve path; Resolve repo_root]).

(** The text of a message, as the f-string at the call gives it. *)
Definition message_text (msg : message) : pystr :=
  match msg with
  | Msg text => text
  | MsgExpectedResourceId expected actual =>
      py "Expected resource_id '" ++ expected ++ py "', got '"
      ++ str_of_value actual ++ py "'"
  end.

(** [add_error], in full. *)
Definition add_error_io (ω : world) (file_path repo_root : pystr)
    (path_stack : list pystr) (msg : message) : world :=
  let location := format_path path_stack in
  let (shown, reads) := display_path file_path repo_root in
  mkWorld (w_schema ω)
          (w_errors ω ++ [shown ++ py ": " ++ location ++ py ": " ++ message_text msg])
          (w_reads ω ++ reads).

(** The body of the loop over [stats.items()]. *)
Definition validate_stat_io
    (validate_value : json -> StatType -> pystr -> pystr -> list pystr -> world -> world)
    (stats_schema : Schema) (file_path repo_root : pystr)
    (current_stack : list pystr) (ω : world)
    (stat_name : pystr) (stat_value : json) : world :=
  if bool_decide (stat_name ∈ META_STATS) then ω
  else match stats_schema !! stat_name with
       | None =>
           add_error_io ω file_path repo_root
             (current_stack ++ [py "stats." ++ stat_name])
             (Msg (py "Unknown stat for this resource"))
       | Some stat_type =>
           let malformed :=
             add_error_io ω file_path repo_root
               (current_stack ++ [py "stats." ++ stat_name])
               (Msg (py "Expected an object with a 'value' field")) in
           match stat_value with
           | JDict entry =>
               dict_get_then (py "value")
                 (fun value =>
                    validate_value value stat_type file_path repo_root
                      (current_stack ++ [py "stats." ++ stat_name ++ py ".value"]) ω)
                 malformed entry
           | _ => malformed
           end
       end.

Definition validate_resource_instance_with_io
    (validate_value : json -> StatType -> pystr -> pystr -> list pystr -> world -> world)
    (resource_obj : json)
    (file_path repo_root : pystr) (path_stack : list pystr) (ω : world) : world :=
  match resource_obj with
  | JDict obj =>
      match dict_get (py "resource_id") obj with
      | JStr rid =>
          if bool_decide (rid = []) then
            add_error_io ω file_path repo_root path_stack
              (Msg (py "Missing or invalid resource_id"))
          else
            match w_schema ω !! rid with
            | None =>
                add_error_io ω file_path repo_root
                  (path_stack ++ [py "resource_id='" ++ rid ++ py "'"])
                  (Msg (py "Unknown resource_id (no stats.rpgs found)"))
            | Some stats_schema =>
                let invalid_stats stats :=
                  add_error_io ω file_path repo_root
                    (path_stack ++ [resource_label obj])
                    (Msg (py "Missing or invalid stats object, got " ++ type_name stats)) in
                dict_get_then (py "stats")
                  (fun stats =>
                     match stats with
                     | JDict stats =>
                         let current_stack := path_stack ++ [resource_label obj] in
                         fold_left
                           (fun ω '(stat_name, stat_value) =>
                              validate_stat_io validate_value stats_schema
                                file_path repo_root current_stack ω stat_name stat_value)
                           stats ω
                     | _ => invalid_stats stats
                     end)
                  (invalid_stats JNull) obj
            end
      | _ =>
          add_error_io ω file_path repo_root path_stack
            (Msg (py "Missing or invalid resource_id"))
      end
  | _ =>
      add_error_io ω file_path repo_root path_stack
        (Msg (py "Expected object for resource, got " ++ type_name resource_obj))
  end.

Fixpoint validate_value_io (value : json) (stat_type : StatType)
    (file_path repo_root : pystr) (path_stack : list pystr) (ω : world)
    {struct value} : world :=
  match value with
  | JNull => ω
  | _ =>
    if is_array stat_type then
      match value with
      | JList items =>
          let element_type := element_type stat_type in
          for_enumerate
            (fun idx item ω =>
               if is_none item && str_eqb (kind element_type) (py "resource") then ω
               else validate_value_io item element_type file_path repo_root
                      (path_stack ++ [py "[" ++ str_of_nat idx ++ py "]"]) ω)
            items 0%nat ω
      | _ =>
          add_error_io ω file_path repo_root path_stack
            (Msg (py "Expected array, got " ++ type_name value))
      end
    else
      let kind := kind stat_type in
      if str_eqb kind (py "unknown") then ω
      else if str_eqb kind (py "string") then
        if negb (isinstance_str value) then
          add_error_io ω file_path repo_root path_stack
            (Msg (py "Expected string, got " ++ type_name value))
        else ω
      else if str_eqb kind (py "bool") then
        if negb (isinstance_bool value) then
          add_error_io ω file_path repo_root path_stack
            (Msg (py "Expected bool, got " ++ type_name value))
        else ω
      else if str_eqb kind (py "integer") then
        if isinstance_bool value || negb (isinstance_int_float value) then
          add_error_io ω file_path repo_root path_stack
            (Msg (py "Expected number, got " ++ type_name value))
        else ω
      else if str_eqb kind (py "photo") then
        match value with
        | JDict photo =>
            if dict_contains (py "url") photo
               && negb (isinstance_str (dict_get (py "url") photo)) then
              add_error_io ω file_path repo_root (path_stack ++ [py "url"])
                (Msg (py "Expected url string, got "
                      ++ type_name (dict_get (py "url") photo)))
            else ω
        | _ =>
            add_error_io ω file_path repo_root path_stack
              (Msg (py "Expected photo object, got " ++ type_name value))
        end
      else if str_eqb kind (py "resource") then
        match value with
        | JDict obj =>
            let expected := resource_type stat_type in
            let actual := dict_get (py "resource_id") obj in
            let ω :=
              match expected with
              | Some expected =>
                  if negb (bool_decide (expected = []))
                     && negb (eq_str actual expected) then
                    add_error_io ω file_path repo_root path_stack
                      (MsgExpectedResourceId expected actual)
                  else ω
              | None => ω
              end in
            validate_resource_instance_with_io validate_value_io value
              file_path repo_root path_stack ω
        | _ =>
            add_error_io ω file_path repo_root path_stack
              (Msg (py "Expected resource object, got " ++ type_name value))
        end
      else ω
  end.

Definition validate_resource_instance_io :=
  validate_resource_instance_with_io validate_value_io.

(** The text the script appends for the entry [e]. *)
Definition render_error (e : error) : pystr :=
  fst (display_path (err_file e) (err_repo_root e))
  ++ py ": " ++ err_location e ++ py ": " ++ message_text (err_message e).

(** The world after the entries [new] have been reported from [ω]. *)
Definition world_after (ω : world) (new : list error) : world :=
  mkWorld (w_schema ω)
          (w_errors ω ++ map render_error new)
          (w_reads ω
           ++ flat_map (fun e => [Resolve (err_file e); Resolve (err_repo_root e)]) new).

(** The step [f_io] on worlds does what the step [f] on stores does: it
    reports the entries [f] appends, rendered, and makes the accesses of
    these reports. *)
Definition tracks (f_io : world -> world) (f : store -> store) : Prop :=
  forall ω, f_io ω = world_after ω (st_errors (f (mkStore (w_schema ω) []))).

End Rendering.

(** ** The rest of the script *)

(** [infer_system_from_path], from the parts of
    [path.resolve().relative_to(repo_root.resolve())]; [None] stands for the
    [ValueError] of [relative_to]. *)
Definition infer_system_from_path (rel_parts : option (list pystr)) : option pystr :=
  match rel_parts with
  | None => None
  | Some parts =>
      (fix scan (rest : list pystr) (idx : nat) : option pystr :=
         match rest with
         | [] => None
         | part :: rest =>
             if str_eqb part (py "systems") && (idx + 1 <? length parts)%nat
             then parts !! (idx + 1)%nat
             else scan rest (S idx)
         end) parts 0%nat
  end.

(** The test [iter_instance_files] applies to a file name. *)
Definition is_instance_filename (filename : pystr) : bool :=
  if startswith filename (py ".") then false
  else if negb (endswith filename (py ".json") || endswith filename (py ".rpg")) then false
  else true.

(** [iter_instance_files], from what [os.walk(instances_root)] yields.  A
    listed file [Path(root) / filename] is kept as its two operands. *)
Definition iter_instance_files (walk : list (pystr * list pystr * list pystr))
  : list (pystr * pystr) :=
  fold_left
    (fun files '(root, _dirs, filenames) =>
       fold_left
         (fun files filename =>
            if is_instance_filename filename then files ++ [(root, filename)]
            else files)
         filenames files)
    walk [].

(** The end of [main], once the schema is loaded and the instance files are
    listed and read: the exit status and the errors that are printed. *)
Definition main_validate (schema : Registry) (repo_root : pystr)
    (instance_files : list (pystr * read_result)) : Z * list error :=
  let errors := st_errors (validate_files repo_root instance_files (mkStore schema [])) in
  match errors with
  | [] => (0%Z, errors)
  | _ => (1%Z, errors)
  end.

(** ** Vocabulary of the further statements *)

(** The store of a run that starts with the registry of [σ] and no error. *)
Definition fresh (σ : store) : store := mkStore (st_schema σ) [].

(** The step [f] keeps the registry and appends to the errors what it
    reports from a fresh store: it neither reads nor changes the errors
    already collected. *)
Definition framed (f : store -> store) : Prop :=
  forall σ, f σ = mkStore (st_schema σ) (st_errors σ ++ st_errors (f (fresh σ))).

(** The errors of one file validated on its own. *)
Definition errors_of_file (schema : Registry) (repo_root : pystr)
    (file : pystr * read_result) : list error :=
  st_errors (validate_file repo_root (mkStore schema []) file).

(** The errors of one entry of [stats] validated on its own. *)
Definition errors_of_stat (schema : Registry) (stats_schema : Schema)
    (file_path repo_root : pystr) (current_stack : list pystr)
    (entry : pystr * json) : list error :=
  st_errors (validate_stat validate_value stats_schema file_path repo_root
               current_stack (mkStore schema []) (fst entry) (snd entry)).

(** An error of the file [file_path] whose location is the rendering of
    [path_stack] extended by some segments. *)
Definition located_under (file_path repo_root : pystr) (path_stack : list pystr)
    (e : error) : Prop :=
  err_file e = file_path /\ err_repo_root e = repo_root
  /\ exists segments, err_location e = format_path (path_stack ++ segments).

(** [σ'] is [σ] with the same registry and, appended, errors that all
    satisfy [P]. *)
Definition reports (P : error -> Prop) (σ σ' : store) : Prop :=
  st_schema σ' = st_schema σ
  /\ exists new, st_errors σ' = st_errors σ ++ new /\ Forall P new.

(** The kinds [validate_value] has a rule for. *)
Definition checked_kinds : list pystr :=
  [py "string"; py "bool"; py "integer"; py "photo"; py "resource"].

(** What a value has to be for a descriptor, read as a typing relation
    over the registry [schema]. *)
#[warnings="-register-all"]
Inductive conforms (schema : Registry) : json -> StatType -> Prop :=
| conforms_null stat_type :
    conforms schema JNull stat_type
| conforms_array items stat_type :
    is_array stat_type = true ->
    Forall (fun item => conforms schema item (element_type stat_type)) items ->
    conforms schema (JList items) stat_type
| conforms_unchecked value stat_type :
    is_array stat_type = false ->
    kind stat_type ∉ checked_kinds ->
    conforms schema value stat_type
| conforms_string s stat_type :
    is_array stat_type = false -> kind stat_type = py "string" ->
    conforms schema (JStr s) stat_type
| conforms_bool b stat_type :
    is_array stat_type = false -> kind stat_type = py "bool" ->
    conforms schema (JBool b) stat_type
| conforms_int n stat_type :
    is_array stat_type = false -> kind stat_type = py "integer" ->
    conforms schema (JInt n) stat_type
| conforms_float x stat_type :
    is_array stat_type = false -> kind stat_type = py "integer" ->
    conforms schema (JFloat x) stat_type
| conforms_photo photo stat_type :
    is_array stat_type = false -> kind stat_type = py "photo" ->
    (dict_contains (py "url") photo = true ->
     isinstance_str (dict_get (py "url") photo) = true) ->
    conforms schema (JDict photo) stat_type
| conforms_resource obj rid stats_schema stats stat_type :
    is_array stat_type = false -> kind stat_type = py "resource" ->
    (forall expected,
       resource_type stat_type = Some expected -> expected <> [] -> rid = expected) ->
    dict_get (py "resource_id") obj = JStr rid -> rid <> [] ->
    schema !! rid = Some stats_schema ->
    dict_get (py "stats") obj = JDict stats ->
    Forall (fun entry =>
              fst entry ∈ META_STATS
              \/ exists stat_type' wrapper,
                   stats_schema !! fst entry = Some stat_type'
                   /\ snd entry = JDict wrapper
                   /\ dict_contains (py "value") wrapper = true
                   /\ conforms schema (dict_get (py "value") wrapper) stat_type')
           stats ->
    conforms schema (JDict obj) stat_type.

(** A document conforms when it is an object that conforms as a resource of
    any kind. *)
Definition document_conforms (schema : Registry) (document : json) : Prop :=
  exists obj, document = JDict obj
              /\ conforms schema document (mkStatType (py "resource") false None).

(** * Properties *)

(** Literals, messages and the helpers of the validator stay folded when a
    goal is simplified. *)
Arguments py _ : simpl never.
Arguments str_eqb _ _ : simpl never.
Arguments str_of_nat _ : simpl never.
Arguments add_error _ _ _ _ _ : simpl never.
Arguments dict_get _ _ : simpl never.
Arguments dict_contains _ _ : simpl never.

(** ** Strings *)

Lemma str_eqb_eq (a b : pystr) : str_eqb a b = true <-> a = b.
Proof. unfold str_eqb. apply bool_decide_eq_true. Qed.

Lemma str_eqb_refl (a : pystr) : str_eqb a a = true.
Proof. by apply str_eqb_eq. Qed.

Lemma str_eqb_neq (a b : pystr) : a <> b -> str_eqb a b = false.
Proof. unfold str_eqb. apply bool_decide_eq_false_2. Qed.

Lemma startswith_app (p s : pystr) : startswith (p ++ s) p = true.
Proof. unfold startswith. by rewrite take_app_length, str_eqb_refl. Qed.

Lemma startswith_inv (s p : pystr) :
  startswith s p = true -> s = p ++ drop (length p) s.
Proof.
  unfold startswith. rewrite str_eqb_eq. intros H.
  rewrite <- H at 1. symmetry. apply take_drop.
Qed.

Lemma endswith_app (s suffix : pystr) : endswith (s ++ suffix) suffix = true.
Proof.
  unfold endswith. rewrite length_app.
  replace (length s + length suffix - length suffix)%nat with (length s) by lia.
  rewrite drop_app_length, str_eqb_refl, andb_true_r.
  apply Nat.leb_le. lia.
Qed.

(** ** The type grammar *)

Lemma element_type_scalar (t : StatType) :
  is_array t = false -> element_type t = t.
Proof. destruct t; simpl; intros ->; reflexivity. Qed.

Lemma parse_type_is_array (token : pystr) :
  is_array (parse_type token) = endswith token (py "[]").
Proof. unfold parse_type. repeat case_match; reflexivity. Qed.

(** C6. Every type token that ends in the array marker parses to a
    descriptor whose array flag is set; the element type derived from it has
    the flag cleared and the same kind and resource kind.  The derivation
    builds a new descriptor: the parsed one is a value and stays what it
    was. *)
Theorem array_token_element_type (core : pystr) :
  let parsed := parse_type (core ++ py "[]") in
  is_array parsed = true
  /\ is_array (element_type parsed) = false
  /\ kind (element_type parsed) = kind parsed
  /\ resource_type (element_type parsed) = resource_type parsed.
Proof.
  intros parsed. subst parsed.
  rewrite parse_type_is_array, endswith_app. repeat split.
Qed.

(** ** Null and numbers *)

(** C2. Checking [None] against any descriptor, at any path and in any
    store, returns the store as it was: no error is appended and nothing
    else is looked at. *)
Theorem null_is_always_valid (stat_type : StatType) (file_path repo_root : pystr)
    (path_stack : list pystr) (σ : store) :
  validate_value JNull stat_type file_path repo_root path_stack σ = σ.
Proof. reflexivity. Qed.

(** C10. A statistic declared [integer] accepts every [int] and every
    [float], integral or not: [1.5] passes without error. *)
Theorem integer_accepts_any_number (resource_type : option pystr)
    (file_path repo_root : pystr) (path_stack : list pystr) (σ : store) :
  parse_type (py "integer") = mkStatType (py "integer") false None
  /\ (forall x : spec_float,
        validate_value (JFloat x) (mkStatType (py "integer") false resource_type)
          file_path repo_root path_stack σ = σ)
  /\ (forall n : Z,
        validate_value (JInt n) (mkStatType (py "integer") false resource_type)
          file_path repo_root path_stack σ = σ)
  /\ validate_value (JFloat one_and_a_half) (parse_type (py "integer"))
       file_path repo_root path_stack σ = σ.
Proof. repeat split. Qed.

(** ** Dicts and document size *)

Section Dicts.

Context {A : Type}.
Implicit Types (found : json -> A) (missing : A) (d : list (pystr * json)).

(** [dict_get_then] is [d.get(key)] guarded by [key in d]. *)
Lemma dict_get_then_eq key found missing d :
  dict_get_then key found missing d
  = if dict_contains key d then found (dict_get key d) else missing.
Proof.
  unfold dict_contains, dict_get.
  induction d as [|[k v] d IH]; simpl; [reflexivity|].
  destruct (str_eqb k key); [reflexivity|exact IH].
Qed.

Lemma dict_get_then_ind (P : A -> Prop) key found missing d :
  P missing ->
  (forall k v, In (k, v) d -> P (found v)) ->
  P (dict_get_then key found missing d).
Proof.
  intros Hmissing Hfound.
  induction d as [|[k v] d IH]; simpl; [exact Hmissing|].
  destruct (str_eqb k key).
  - apply (Hfound k v). by left.
  - apply IH. intros k' v' Hin. apply (Hfound k' v'). by right.
Qed.

Lemma dict_get_then_ext key found found' missing d :
  (forall k v, In (k, v) d -> found v = found' v) ->
  dict_get_then key found missing d = dict_get_then key found' missing d.
Proof.
  intros Hext.
  induction d as [|[k v] d IH]; simpl; [reflexivity|].
  destruct (str_eqb k key).
  - apply (Hext k v). by left.
  - apply IH. intros k' v' Hin. apply (Hext k' v'). by right.
Qed.

End Dicts.

Lemma dict_get_missing key d : dict_contains key d = false -> dict_get key d = JNull.
Proof.
  unfold dict_contains, dict_get.
  induction d as [|[k v] d IH]; simpl; [reflexivity|].
  destruct (str_eqb k key); [discriminate|exact IH].
Qed.

Lemma json_size_list_elem (item : json) (items : list json) :
  In item items -> (json_size item < json_size (JList items))%nat.
Proof.
  simpl. induction items as [|x items IH]; simpl; [tauto|].
  intros [->|Hin]; [lia|]. specialize (IH Hin). lia.
Qed.

Lemma json_size_dict_elem (k : pystr) (v : json) (d : list (pystr * json)) :
  In (k, v) d -> (json_size v < json_size (JDict d))%nat.
Proof.
  simpl. induction d as [|x d IH]; simpl; [tauto|].
  intros [->|Hin]; [simpl; lia|]. specialize (IH Hin). lia.
Qed.

(** Induction on the size of a document. *)
Lemma json_size_ind (P : json -> Prop) :
  (forall v, (forall w, (json_size w < json_size v)%nat -> P w) -> P v) ->
  forall v, P v.
Proof.
  intros Hstep v.
  remember (json_size v) as n eqn:Hn.
  revert v Hn. induction n as [n IH] using lt_wf_ind.
  intros v ->. apply Hstep. intros w Hlt. by apply (IH (json_size w)).
Qed.

(** ** Loops *)

Lemma for_enumerate_ext {A S} (body body' : nat -> A -> S -> S) items idx σ :
  (forall i item σ, In item items -> body i item σ = body' i item σ) ->
  for_enumerate body items idx σ = for_enumerate body' items idx σ.
Proof.
  revert idx σ. induction items as [|item items IH]; intros idx σ Hext; simpl;
    [reflexivity|].
  rewrite (Hext idx item σ) by (by left).
  apply IH. intros i x σ' Hin. apply Hext. by right.
Qed.

Lemma for_enumerate_invariant {A S} (R : S -> S -> Prop)
    (body : nat -> A -> S -> S) items idx σ :
  (forall σ, R σ σ) ->
  (forall σ1 σ2 σ3, R σ1 σ2 -> R σ2 σ3 -> R σ1 σ3) ->
  (forall i item σ, In item items -> R σ (body i item σ)) ->
  R σ (for_enumerate body items idx σ).
Proof.
  intros Hrefl Htrans. revert idx σ.
  induction items as [|item items IH]; intros idx σ Hbody; simpl; [apply Hrefl|].
  apply Htrans with (body idx item σ).
  - apply Hbody. by left.
  - apply IH. intros i x σ' Hin. apply Hbody. by right.
Qed.

Lemma fold_left_ext_in {A B} (f g : A -> B -> A) (l : list B) (a : A) :
  (forall a b, In b l -> f a b = g a b) ->
  fold_left f l a = fold_left g l a.
Proof.
  revert a. induction l as [|b l IH]; intros a Hext; simpl; [reflexivity|].
  rewrite (Hext a b) by (by left).
  apply IH. intros a' b' Hin. apply Hext. by right.
Qed.

Lemma fold_left_invariant {A B} (R : A -> A -> Prop) (f : A -> B -> A)
    (l : list B) (a : A) :
  (forall a, R a a) ->
  (forall a1 a2 a3, R a1 a2 -> R a2 a3 -> R a1 a3) ->
  (forall a b, In b l -> R a (f a b)) ->
  R a (fold_left f l a).
Proof.
  intros Hrefl Htrans. revert a.
  induction l as [|b l IH]; intros a Hstep; simpl; [apply Hrefl|].
  apply Htrans with (f a b).
  - apply Hstep. by left.
  - apply IH. intros a' b' Hin. apply Hstep. by right.
Qed.

(** ** The validator in direct style *)

Arguments for_enumerate {A S} _ _ _ _ : simpl never.
Arguments validate_stat _ _ _ _ _ _ _ _ : simpl never.
Arguments validate_resource_instance_with _ _ _ _ _ _ : simpl never.

(** [validate_stat] as the source reads: the entry must be a dict holding
    the key ["value"], and then its value is checked. *)
Lemma validate_stat_eq vv stats_schema file_path repo_root current_stack σ
    stat_name stat_value :
  validate_stat vv stats_schema file_path repo_root current_stack σ
    stat_name stat_value
  = if bool_decide (stat_name ∈ META_STATS) then σ
    else match stats_schema !! stat_name with
         | None =>
             add_error σ file_path repo_root
               (current_stack ++ [py "stats." ++ stat_name])
               (Msg (py "Unknown stat for this resource"))
         | Some stat_type =>
             match stat_value with
             | JDict entry =>
                 if dict_contains (py "value") entry then
                   vv (dict_get (py "value") entry) stat_type file_path repo_root
                     (current_stack ++ [py "stats." ++ stat_name ++ py ".value"]) σ
                 else
                   add_error σ file_path repo_root
                     (current_stack ++ [py "stats." ++ stat_name])
                     (Msg (py "Expected an object with a 'value' field"))
             | _ =>
                 add_error σ file_path repo_root
                   (current_stack ++ [py "stats." ++ stat_name])
                   (Msg (py "Expected an object with a 'value' field"))
             end
         end.
Proof.
  unfold validate_stat.
  destruct (bool_decide _); [reflexivity|].
  destruct (stats_schema !! stat_name); [|reflexivity].
  destruct stat_value; try reflexivity.
  apply dict_get_then_eq.
Qed.

(** [validate_resource_instance] on a dict as the source reads, with
    [stats = resource_obj.get("stats")] read before it is tested. *)
Lemma validate_resource_instance_with_eq vv obj file_path repo_root path_stack σ :
  validate_resource_instance_with vv (JDict obj) file_path repo_root path_stack σ
  = match dict_get (py "resource_id") obj with
    | JStr rid =>
        if bool_decide (rid = []) then
          add_error σ file_path repo_root path_stack
            (Msg (py "Missing or invalid resource_id"))
        else
          match st_schema σ !! rid with
          | None =>
              add_error σ file_path repo_root
                (path_stack ++ [py "resource_id='" ++ rid ++ py "'"])
                (Msg (py "Unknown resource_id (no stats.rpgs found)"))
          | Some stats_schema =>
              match dict_get (py "stats") obj with
              | JDict stats =>
                  fold_left
                    (fun σ '(stat_name, stat_value) =>
                       validate_stat vv stats_schema file_path repo_root
                         (path_stack ++ [resource_label obj]) σ stat_name stat_value)
                    stats σ
              | stats =>
                  add_error σ file_path repo_root
                    (path_stack ++ [resource_label obj])
                    (Msg (py "Missing or invalid stats object, got " ++ type_name stats))
              end
          end
    | _ =>
        add_error σ file_path repo_root path_stack
          (Msg (py "Missing or invalid resource_id"))
    end.
Proof.
  unfold validate_resource_instance_with.
  destruct (dict_get (py "resource_id") obj); try reflexivity.
  destruct (bool_decide _); [reflexivity|].
  destruct (st_schema σ !! s); [|reflexivity].
  rewrite dict_get_then_eq.
  destruct (dict_contains (py "stats") obj) eqn:Hstats.
  - destruct (dict_get (py "stats") obj); reflexivity.
  - by rewrite (dict_get_missing _ _ Hstats).
Qed.

(** ** The frame of a validation *)

Section Frame.

Implicit Types (σ : store).

Lemma extends_refl σ : extends σ σ.
Proof. split; [reflexivity|]. exists []. by rewrite app_nil_r. Qed.

Lemma extends_trans σ1 σ2 σ3 : extends σ1 σ2 -> extends σ2 σ3 -> extends σ1 σ3.
Proof.
  intros [Hs12 [new12 He12]] [Hs23 [new23 He23]]. split; [congruence|].
  exists (new12 ++ new23). by rewrite He23, He12, app_assoc.
Qed.

Lemma extends_add_error σ file_path repo_root path_stack msg :
  extends σ (add_error σ file_path repo_root path_stack msg).
Proof. split; [reflexivity|]. eexists. reflexivity. Qed.

Hint Resolve extends_refl extends_add_error : core.

Variable vv : json -> StatType -> pystr -> pystr -> list pystr -> store -> store.

Lemma validate_stat_extends stats_schema file_path repo_root current_stack σ
    stat_name stat_value :
  (forall value, (json_size value < json_size stat_value)%nat ->
     forall stat_type path_stack σ,
       extends σ (vv value stat_type file_path repo_root path_stack σ)) ->
  extends σ (validate_stat vv stats_schema file_path repo_root current_stack σ
               stat_name stat_value).
Proof.
  intros Hvv. unfold validate_stat.
  destruct (bool_decide _); [auto|].
  destruct (stats_schema !! stat_name); [|auto].
  destruct stat_value; auto.
  apply dict_get_then_ind; [auto|].
  intros k v Hin. apply Hvv. by apply (json_size_dict_elem k).
Qed.

Lemma validate_resource_instance_with_extends resource_obj file_path repo_root
    path_stack σ :
  (forall value, (json_size value < json_size resource_obj)%nat ->
     forall stat_type path_stack σ,
       extends σ (vv value stat_type file_path repo_root path_stack σ)) ->
  extends σ (validate_resource_instance_with vv resource_obj file_path repo_root
               path_stack σ).
Proof.
  intros Hvv. unfold validate_resource_instance_with.
  destruct resource_obj as [| | | | |items|obj]; auto.
  destruct (dict_get (py "resource_id") obj) as [| | | |rid| |]; auto.
  destruct (bool_decide (rid = [])); [auto|].
  destruct (st_schema σ !! rid); [|auto].
  apply dict_get_then_ind; [auto|].
  intros k stats Hstats. destruct stats as [| | | | |items|stats]; auto.
  apply (fold_left_invariant extends); [auto|apply extends_trans|].
  intros σ' [stat_name stat_value] Hin.
  apply validate_stat_extends. intros value Hlt. apply Hvv.
  pose proof (json_size_dict_elem _ _ _ Hin).
  pose proof (json_size_dict_elem _ _ _ Hstats). lia.
Qed.

End Frame.

Lemma validate_value_extends value :
  forall stat_type file_path repo_root path_stack σ,
    extends σ (validate_value value stat_type file_path repo_root path_stack σ).
Proof.
  induction value as [value IH] using json_size_ind.
  intros stat_type file_path repo_root path_stack σ.
  pose proof extends_refl. pose proof extends_add_error.
  destruct value as [| | | | |items|obj]; simpl; auto;
    destruct (is_array stat_type); auto;
    repeat (match goal with |- context [if ?c then _ else _] => destruct c end; auto).
  - apply (for_enumerate_invariant extends); [auto|apply extends_trans|].
    intros i item σ' Hin.
    destruct (_ && _); [auto|]. apply IH. by apply json_size_list_elem.
  - match goal with |- extends σ (validate_resource_instance_with _ _ _ _ _ ?σ') =>
      apply extends_trans with σ' end.
    + destruct (resource_type stat_type); [|auto].
      destruct (_ && _); auto.
    + apply validate_resource_instance_with_extends.
      intros value Hlt st path σ'. by apply IH.
Qed.

Lemma validate_resource_instance_extends resource_obj file_path repo_root path_stack σ :
  extends σ (validate_resource_instance resource_obj file_path repo_root path_stack σ).
Proof.
  apply validate_resource_instance_with_extends.
  intros value _ st path σ'. apply validate_value_extends.
Qed.

Lemma validate_files_extends repo_root instance_files σ :
  extends σ (validate_files repo_root instance_files σ).
Proof.
  apply (fold_left_invariant extends);
    [apply extends_refl|apply extends_trans|].
  intros σ' [path [data|exc]] _; simpl.
  - apply validate_resource_instance_extends.
  - apply extends_add_error.
Qed.

(** On stores, a validation leaves the registry as it was and only appends
    to the list of errors, whatever the document, the registry and the
    errors already collected; this holds for [validate_resource_instance]
    and for [validate_value].  The accesses to the file system that come
    with the errors are the subject of
    [validation_reads_the_file_system_only_to_report]. *)
Theorem validation_only_appends_errors (document : json) (stat_type : StatType)
    (file_path repo_root : pystr) (path_stack : list pystr) (σ : store) :
  let after_instance :=
    validate_resource_instance document file_path repo_root path_stack σ in
  let after_value :=
    validate_value document stat_type file_path repo_root path_stack σ in
  st_schema after_instance = st_schema σ
  /\ (exists new, st_errors after_instance = st_errors σ ++ new)
  /\ st_schema after_value = st_schema σ
  /\ (exists new, st_errors after_value = st_errors σ ++ new).
Proof.
  intros after_instance after_value.
  destruct (validate_resource_instance_extends document file_path repo_root
              path_stack σ) as [Hschema Herrors].
  destruct (validate_value_extends document stat_type file_path repo_root
              path_stack σ) as [Hschema' Herrors'].
  auto.
Qed.

(** ** The fast path for null array elements *)

Section Congruence.

Variables vv vv' : json -> StatType -> pystr -> pystr -> list pystr -> store -> store.

Lemma validate_stat_ext stats_schema file_path repo_root current_stack σ
    stat_name stat_value :
  (forall value, (json_size value < json_size stat_value)%nat ->
     forall stat_type path_stack σ,
       vv value stat_type file_path repo_root path_stack σ
       = vv' value stat_type file_path repo_root path_stack σ) ->
  validate_stat vv stats_schema file_path repo_root current_stack σ
    stat_name stat_value
  = validate_stat vv' stats_schema file_path repo_root current_stack σ
      stat_name stat_value.
Proof.
  intros Hvv. unfold validate_stat.
  destruct (bool_decide _); [reflexivity|].
  destruct (stats_schema !! stat_name); [|reflexivity].
  destruct stat_value; try reflexivity.
  apply dict_get_then_ext.
  intros k v Hin. apply Hvv. by apply (json_size_dict_elem k).
Qed.

Lemma validate_resource_instance_with_ext resource_obj file_path repo_root
    path_stack σ :
  (forall value, (json_size value < json_size resource_obj)%nat ->
     forall stat_type path_stack σ,
       vv value stat_type file_path repo_root path_stack σ
       = vv' value stat_type file_path repo_root path_stack σ) ->
  validate_resource_instance_with vv resource_obj file_path repo_root path_stack σ
  = validate_resource_instance_with vv' resource_obj file_path repo_root path_stack σ.
Proof.
  intros Hvv. unfold validate_resource_instance_with.
  destruct resource_obj as [| | | | |items|obj]; try reflexivity.
  destruct (dict_get (py "resource_id") obj) as [| | | |rid| |]; try reflexivity.
  destruct (bool_decide (rid = [])); [reflexivity|].
  destruct (st_schema σ !! rid); [|reflexivity].
  apply dict_get_then_ext.
  intros k stats Hstats. destruct stats as [| | | | |items|stats]; try reflexivity.
  apply fold_left_ext_in.
  intros σ' [stat_name stat_value] Hin.
  apply validate_stat_ext. intros value Hlt. apply Hvv.
  pose proof (json_size_dict_elem _ _ _ Hin).
  pose proof (json_size_dict_elem _ _ _ Hstats). lia.
Qed.

End Congruence.

(** C8. Taking the fast path out of the array loop changes nothing: on
    every value and every descriptor, and so on every array and every
    element type, the validator with the fast path and the one that sends
    each null element through the generic check return the same store,
    hence the same list of errors. *)
Theorem null_fast_path_is_redundant (value : json) :
  forall (stat_type : StatType) (file_path repo_root : pystr)
         (path_stack : list pystr) (σ : store),
    validate_value value stat_type file_path repo_root path_stack σ
    = validate_value_no_fast_path value stat_type file_path repo_root path_stack σ.
Proof.
  induction value as [value IH] using json_size_ind.
  intros stat_type file_path repo_root path_stack σ.
  destruct value as [| | | | |items|obj]; simpl; try reflexivity;
    destruct (is_array stat_type); try reflexivity.
  - apply for_enumerate_ext. intros i item σ' Hin.
    destruct (is_none item && _) eqn:Hfast.
    + apply andb_true_iff in Hfast as [Hnone _].
      destruct item; try discriminate. reflexivity.
    + apply IH. by apply json_size_list_elem.
  - repeat (match goal with |- context [if str_eqb ?a ?b then _ else _] =>
              destruct (str_eqb a b) end; try reflexivity).
    apply validate_resource_instance_with_ext.
    intros value Hlt st path σ'. by apply IH.
Qed.

(** ** Booleans against [integer] *)

(** C4. Against a statistic of kind [integer] a boolean gets exactly one
    error, "Expected number, got bool", at the path of the value, while an
    [int] or a [float] gets none.  Inside a document the path of the value is
    [stats.<name>.value]; the document
    [{"resource_id": "orc", "stats": {"hp": {"value": true}}}] against
    [{hp: integer}] yields that one error and nothing else. *)
Theorem boolean_rejected_for_integer (resource_type : option pystr)
    (file_path repo_root : pystr) (path_stack : list pystr) (σ : store) :
  let integer := mkStatType (py "integer") false resource_type in
  let mismatch := Msg (py "Expected number, got bool") in
  (forall b,
     validate_value (JBool b) integer file_path repo_root path_stack σ
     = mkStore (st_schema σ)
         (st_errors σ ++ [mkError file_path repo_root (format_path path_stack) mismatch]))
  /\ (forall n, validate_value (JInt n) integer file_path repo_root path_stack σ = σ)
  /\ (forall x, validate_value (JFloat x) integer file_path repo_root path_stack σ = σ)
  /\ (forall (stats_schema : Schema) stat_name entry b,
        stat_name ∉ META_STATS ->
        stats_schema !! stat_name = Some integer ->
        dict_contains (py "value") entry = true ->
        dict_get (py "value") entry = JBool b ->
        validate_stat validate_value stats_schema file_path repo_root path_stack σ
          stat_name (JDict entry)
        = mkStore (st_schema σ)
            (st_errors σ
             ++ [mkError file_path repo_root
                   (format_path (path_stack ++ [py "stats." ++ stat_name ++ py ".value"]))
                   mismatch]))
  /\ st_errors (validate_resource_instance orc_document file_path repo_root []
                  (mkStore orc_registry []))
     = [mkError file_path repo_root (py "resource_id='orc' -> stats.hp.value") mismatch].
Proof.
  intros integer mismatch. repeat split.
  intros stats_schema stat_name entry b Hmeta Hschema Hcontains Hvalue.
  rewrite validate_stat_eq, Hschema, Hcontains, Hvalue.
  by rewrite bool_decide_eq_false_2.
Qed.

Lemma boolean_rejected_for_integer_witness :
  (py "hp" ∉ META_STATS)
  /\ st_errors (validate_stat validate_value {[ py "hp" := parse_type (py "integer") ]}
                  (py "orc.json") (py "/repo") [py "resource_id='orc'"]
                  (mkStore orc_registry []) (py "hp") (JDict [(py "value", JBool true)]))
     = [mkError (py "orc.json") (py "/repo") (py "resource_id='orc' -> stats.hp.value")
          (Msg (py "Expected number, got bool"))].
Proof.
  assert (Hmeta : py "hp" ∉ META_STATS)
    by (apply (bool_decide_eq_false_1 (py "hp" ∈ META_STATS)); vm_compute; reflexivity).
  split; [exact Hmeta|].
  destruct (boolean_rejected_for_integer None (py "orc.json") (py "/repo")
              [py "resource_id='orc'"] (mkStore orc_registry []))
    as (_ & _ & _ & Hstat & _).
  rewrite (Hstat {[ py "hp" := parse_type (py "integer") ]} (py "hp")
             [(py "value", JBool true)] true Hmeta);
    vm_compute; reflexivity.
Defined.

(** ** Nested resources *)

Lemma eq_str_false (value : json) (text : pystr) :
  value <> JStr text -> eq_str value text = false.
Proof.
  destruct value; try reflexivity. simpl. intros Hne.
  apply str_eqb_neq. congruence.
Qed.

Lemma validate_value_resource (obj : list (pystr * json)) (expected : option pystr)
    (file_path repo_root : pystr) (path_stack : list pystr) (σ : store) :
  validate_value (JDict obj) (mkStatType (py "resource") false expected)
    file_path repo_root path_stack σ
  = validate_resource_instance (JDict obj) file_path repo_root path_stack
      match expected with
      | Some expected =>
          if negb (bool_decide (expected = []))
             && negb (eq_str (dict_get (py "resource_id") obj) expected) then
            add_error σ file_path repo_root path_stack
              (MsgExpectedResourceId expected (dict_get (py "resource_id") obj))
          else σ
      | None => σ
      end.
Proof. reflexivity. Qed.

Lemma validate_resource_instance_unknown vv (obj : list (pystr * json)) (rid : pystr)
    (file_path repo_root : pystr) (path_stack : list pystr) (σ : store) :
  dict_get (py "resource_id") obj = JStr rid ->
  rid <> [] ->
  st_schema σ !! rid = None ->
  validate_resource_instance_with vv (JDict obj) file_path repo_root path_stack σ
  = add_error σ file_path repo_root
      (path_stack ++ [py "resource_id='" ++ rid ++ py "'"])
      (Msg (py "Unknown resource_id (no stats.rpgs found)")).
Proof.
  intros Hrid Hne Hschema.
  rewrite validate_resource_instance_with_eq, Hrid.
  rewrite bool_decide_eq_false_2 by exact Hne.
  by rewrite Hschema.
Qed.

(** C1. For a descriptor of kind [resource] that names a resource kind,
    checking an object whose [resource_id] is not that name appends exactly
    one mismatch error at the current path and then validates the object as
    a document, in the store that holds this error.  The kind rule applies
    to the value a scalar descriptor is checked against and to each element
    of an array, which is checked against the element type.  When the
    object's own [resource_id] has no schema, the document validation adds
    the unknown-identifier error after the mismatch. *)
Theorem resource_kind_mismatch_then_recursion (stat_type : StatType)
    (expected : pystr) (obj : list (pystr * json))
    (file_path repo_root : pystr) (path_stack : list pystr) (σ : store) :
  let actual := dict_get (py "resource_id") obj in
  let mismatch :=
    mkError file_path repo_root (format_path path_stack)
      (MsgExpectedResourceId expected actual) in
  let reported := mkStore (st_schema σ) (st_errors σ ++ [mismatch]) in
  kind stat_type = py "resource" ->
  resource_type stat_type = Some expected ->
  expected <> [] ->
  actual <> JStr expected ->
  validate_value (JDict obj) (element_type stat_type) file_path repo_root path_stack σ
  = validate_resource_instance (JDict obj) file_path repo_root path_stack reported
  /\ (is_array stat_type = false ->
      validate_value (JDict obj) stat_type file_path repo_root path_stack σ
      = validate_resource_instance (JDict obj) file_path repo_root path_stack reported)
  /\ (is_array stat_type = true ->
      let element_path := path_stack ++ [py "[0]"] in
      validate_value (JList [JDict obj]) stat_type file_path repo_root path_stack σ
      = validate_resource_instance (JDict obj) file_path repo_root element_path
          (mkStore (st_schema σ)
             (st_errors σ
              ++ [mkError file_path repo_root (format_path element_path)
                    (MsgExpectedResourceId expected actual)])))
  /\ (forall rid, actual = JStr rid -> rid <> [] -> st_schema σ !! rid = None ->
      st_errors (validate_value (JDict obj) (element_type stat_type)
                   file_path repo_root path_stack σ)
      = st_errors σ
        ++ [mismatch;
            mkError file_path repo_root
              (format_path (path_stack ++ [py "resource_id='" ++ rid ++ py "'"]))
              (Msg (py "Unknown resource_id (no stats.rpgs found)"))]).
Proof.
  intros actual mismatch reported Hkind Hexpected Hnamed Hdiffers.
  assert (Helement : forall path_stack,
    validate_value (JDict obj) (element_type stat_type) file_path repo_root path_stack σ
    = validate_resource_instance (JDict obj) file_path repo_root path_stack
        (mkStore (st_schema σ)
           (st_errors σ
            ++ [mkError file_path repo_root (format_path path_stack)
                  (MsgExpectedResourceId expected actual)]))).
  { intros path. unfold element_type.
    rewrite Hkind, Hexpected, validate_value_resource.
    rewrite bool_decide_eq_false_2 by exact Hnamed.
    fold actual. by rewrite (eq_str_false _ _ Hdiffers). }
  split; [apply Helement|]. split; [|split].
  - intros Hscalar. rewrite <- (element_type_scalar _ Hscalar) at 1. apply Helement.
  - intros Harray element_path. simpl. rewrite Harray.
    unfold for_enumerate. simpl. apply Helement.
  - intros rid Hrid Hrid_ne Hschema. rewrite Helement.
    unfold validate_resource_instance.
    rewrite (validate_resource_instance_unknown _ _ rid) by done.
    unfold add_error; simpl. by rewrite <- app_assoc.
Qed.

Lemma resource_kind_mismatch_then_recursion_witness :
  let σ := mkStore hero_registry [] in
  let stat_type := parse_type (py "resource<sword>") in
  (kind stat_type = py "resource"
   /\ resource_type stat_type = Some (py "sword")
   /\ py "sword" <> []
   /\ JStr (py "axe") <> JStr (py "sword"))
  /\ st_errors (validate_value axe_document stat_type (py "hero.json") (py "/repo")
                  [py "stats.weapon.value"] σ)
     = [mkError (py "hero.json") (py "/repo") (py "stats.weapon.value")
          (MsgExpectedResourceId (py "sword") (JStr (py "axe")));
        mkError (py "hero.json") (py "/repo")
          (py "stats.weapon.value -> resource_id='axe'")
          (Msg (py "Unknown resource_id (no stats.rpgs found)"))].
Proof.
  intros σ stat_type.
  assert (Hnamed : py "sword" <> []) by (vm_compute; discriminate).
  assert (Hdiffers : JStr (py "axe") <> JStr (py "sword")) by (vm_compute; discriminate).
  split; [repeat split; assumption|].
  destruct (resource_kind_mismatch_then_recursion stat_type (py "sword")
              [(py "resource_id", JStr (py "axe")); (py "stats", JDict [])]
              (py "hero.json") (py "/repo") [py "stats.weapon.value"] σ)
    as (_ & _ & _ & Hunknown); [reflexivity|reflexivity|exact Hnamed|exact Hdiffers|].
  assert (Haxe : py "axe" <> []) by (vm_compute; discriminate).
  pose proof (Hunknown (py "axe") eq_refl Haxe eq_refl) as Herrors.
  vm_compute in Herrors |- *. exact Herrors.
Defined.

(** ** Unknown resource identifiers *)

Lemma validate_files_app repo_root before after σ :
  validate_files repo_root (before ++ after) σ
  = validate_files repo_root after (validate_files repo_root before σ).
Proof. apply fold_left_app. Qed.

(** C3. A document whose [resource_id] is a non-empty string without a
    schema gets exactly one error, the unknown-identifier error, and none of
    its statistics is looked at: the result is the same whatever the value
    checker would do.  In a run over several files the files before and
    after it are validated as usual. *)
Theorem unknown_resource_id_stops_the_document (obj : list (pystr * json))
    (rid file_path repo_root : pystr) (path_stack : list pystr) (σ : store)
    (before after : list (pystr * read_result)) :
  dict_get (py "resource_id") obj = JStr rid ->
  rid <> [] ->
  st_schema σ !! rid = None ->
  validate_resource_instance (JDict obj) file_path repo_root path_stack σ
  = mkStore (st_schema σ)
            (st_errors σ ++ [unknown_resource_id file_path repo_root path_stack rid])
  /\ (forall vv,
        validate_resource_instance_with vv (JDict obj) file_path repo_root path_stack σ
        = validate_resource_instance (JDict obj) file_path repo_root path_stack σ)
  /\ (let σ' := validate_files repo_root before σ in
      validate_files repo_root (before ++ (file_path, ReadOk (JDict obj)) :: after) σ
      = validate_files repo_root after
          (mkStore (st_schema σ)
             (st_errors σ' ++ [unknown_resource_id file_path repo_root [] rid]))).
Proof.
  intros Hrid Hne Hschema. split; [|split].
  - unfold validate_resource_instance.
    by rewrite (validate_resource_instance_unknown _ _ rid).
  - intros vv. unfold validate_resource_instance.
    by rewrite !(validate_resource_instance_unknown _ _ rid).
  - intros σ'. rewrite validate_files_app. fold σ'. simpl.
    destruct (validate_files_extends repo_root before σ) as [Hframe _]. fold σ' in Hframe.
    unfold validate_resource_instance.
    rewrite (validate_resource_instance_unknown _ _ rid) by congruence.
    unfold add_error. by rewrite Hframe.
Qed.

Lemma unknown_resource_id_stops_the_document_witness :
  let σ := mkStore orc_registry [] in
  let file := (py "orc.json", ReadOk orc_document) in
  (JStr (py "axe") = JStr (py "axe") /\ py "axe" <> [] /\ st_schema σ !! py "axe" = None)
  /\ st_errors (validate_files (py "/repo")
                  ([file] ++ (py "axe.json", ReadOk axe_document) :: [file]) σ)
     = [mkError (py "orc.json") (py "/repo") (py "resource_id='orc' -> stats.hp.value")
          (Msg (py "Expected number, got bool"));
        mkError (py "axe.json") (py "/repo") (py "resource_id='axe'")
          (Msg (py "Unknown resource_id (no stats.rpgs found)"));
        mkError (py "orc.json") (py "/repo") (py "resource_id='orc' -> stats.hp.value")
          (Msg (py "Expected number, got bool"))].
Proof.
  intros σ file.
  assert (Haxe : py "axe" <> []) by (vm_compute; discriminate).
  split; [split; [reflexivity|split; [exact Haxe|reflexivity]]|].
  destruct (unknown_resource_id_stops_the_document
              [(py "resource_id", JStr (py "axe")); (py "stats", JDict [])]
              (py "axe") (py "axe.json") (py "/repo") [] σ [file] [file])
    as (_ & _ & Hrun); [reflexivity|exact Haxe|reflexivity|].
  apply (f_equal st_errors) in Hrun.
  vm_compute in Hrun |- *. exact Hrun.
Defined.

(** ** The empty resource kind *)

Lemma validate_value_empty_resource_kind (value : json) (file_path repo_root : pystr)
    (path_stack : list pystr) (σ : store) :
  validate_value value (mkStatType (py "resource") false (Some [])) file_path
    repo_root path_stack σ
  = validate_value value (mkStatType (py "resource") false None) file_path
      repo_root path_stack σ.
Proof. destruct value; reflexivity. Qed.

(** C5, as the code has it. The token [resource<>] parses to kind
    [resource] with the empty string as resource kind, and the validator
    treats the empty string as no constraint: a value is checked against
    [resource<>] exactly as against [resource], and an array against
    [resource<>[]] exactly as against [resource[]], so no mismatch error is
    produced for a nested resource on account of the empty name. *)
Theorem empty_resource_kind_is_no_constraint (value : json)
    (file_path repo_root : pystr) (path_stack : list pystr) (σ : store) :
  parse_type (py "resource<>") = mkStatType (py "resource") false (Some [])
  /\ validate_value value (parse_type (py "resource<>")) file_path repo_root path_stack σ
     = validate_value value (parse_type (py "resource")) file_path repo_root path_stack σ
  /\ validate_value value (parse_type (py "resource<>[]")) file_path repo_root path_stack σ
     = validate_value value (parse_type (py "resource[]")) file_path repo_root path_stack σ.
Proof.
  split; [reflexivity|]. split.
  - apply validate_value_empty_resource_kind.
  - destruct value; try reflexivity.
    change (parse_type (py "resource<>[]")) with (mkStatType (py "resource") true (Some [])).
    change (parse_type (py "resource[]")) with (mkStatType (py "resource") true None).
    simpl. apply for_enumerate_ext. intros i item σ' _.
    destruct (_ && _); [reflexivity|].
    apply validate_value_empty_resource_kind.
Qed.

(** C5, as stated, fails: the statistic [weapon] is declared [resource<>],
    the nested resource is a well-formed [sword], and validation reports
    nothing, so no mismatch error is produced for this nested resource. *)
Lemma empty_resource_kind_reports_no_mismatch :
  parse_type (py "resource<>") = mkStatType (py "resource") false (Some [])
  /\ dict_get (py "resource_id")
       [(py "resource_id", JStr (py "sword")); (py "stats", JDict [])]
     <> JStr []
  /\ st_errors (validate_resource_instance hero_document (py "hero.json") (py "/repo") []
                  (mkStore open_hero_registry [])) = [].
Proof.
  split; [reflexivity|]. split; [vm_compute; discriminate|].
  vm_compute. reflexivity.
Qed.

(** ** The declaration pattern *)

Section Pattern.

Lemma ident_char_not_space (c : char) : is_ident_char c = true -> is_space c = false.
Proof.
  unfold is_ident_char, is_space. intros Hident.
  apply not_true_is_false. intros Hspace.
  repeat (rewrite orb_true_iff in Hident || rewrite andb_true_iff in Hident
          || rewrite N.leb_le in Hident || rewrite N.eqb_eq in Hident).
  repeat (rewrite orb_true_iff in Hspace || rewrite andb_true_iff in Hspace
          || rewrite N.leb_le in Hspace || rewrite N.eqb_eq in Hspace).
  lia.
Qed.

Lemma space_not_ident_char (c : char) : is_space c = true -> is_ident_char c = false.
Proof.
  intros Hspace. destruct (is_ident_char c) eqn:Hident; [|reflexivity].
  apply ident_char_not_space in Hident. congruence.
Qed.

(** A greedy repetition takes a prefix of characters of the class and
    stops where the class ends. *)
Lemma span_spec (p : char -> bool) (s : pystr) :
  s = fst (span p s) ++ snd (span p s)
  /\ Forall (fun c => p c = true) (fst (span p s))
  /\ stops p (snd (span p s)).
Proof.
  induction s as [|c s IH]; simpl; [by repeat split|].
  destruct (p c) eqn:Hc; [|by repeat split].
  destruct (span p s) as [taken left]; simpl in *.
  destruct IH as (Heq & Hall & Hstop).
  repeat split; [by f_equal|by constructor|exact Hstop].
Qed.

(** Conversely a prefix of the class followed by a text that stops the
    class is what the repetition takes. *)
Lemma span_app (p : char -> bool) (taken left : pystr) :
  Forall (fun c => p c = true) taken -> stops p left ->
  span p (taken ++ left) = (taken, left).
Proof.
  intros Hall Hstop. induction Hall as [|c taken Hc Hall IH]; simpl.
  - destruct left as [|c left]; [reflexivity|]. simpl in *. by rewrite Hstop.
  - by rewrite Hc, IH.
Qed.

Lemma all_non_space_spec (s : pystr) :
  all_non_space s <-> Forall (fun c => non_space c = true) s.
Proof.
  unfold all_non_space, non_space.
  split; intros H; eapply Forall_impl; try exact H;
    simpl; intros c Hc; destruct (is_space c); done.
Qed.

Lemma stops_app_nonempty (p : char -> bool) (s rest : pystr) :
  s <> [] -> Forall (fun c => p c = false) s -> stops p (s ++ rest).
Proof. intros Hne Hall. destruct Hall; [done|]. simpl. done. Qed.

Lemma base_shape_matches (s ws1 tok ws2 name ws3 rest : pystr) :
  base_shape s ws1 tok ws2 name ws3 rest ->
  BASE_STAT_PATTERN_match s = Some (mkBaseMatch tok name ws3 rest).
Proof.
  intros (-> & Hws1 & Hall1 & Htok & Halltok & Hws2 & Hall2
          & Hname & Hallname & Hall3).
  unfold BASE_STAT_PATTERN_match.
  rewrite startswith_app.
  change (drop 4 (py "base" ++ ?x)) with x.
  rewrite (span_app is_space ws1) by
    (try done; apply stops_app_nonempty; done).
  rewrite bool_decide_eq_false_2 by done.
  rewrite (span_app non_space tok).
  2: by apply all_non_space_spec.
  2: { apply stops_app_nonempty; [done|].
       eapply Forall_impl; [exact Hall2|].
       simpl. unfold non_space. by intros c ->. }
  rewrite bool_decide_eq_false_2 by done.
  rewrite (span_app is_space ws2).
  2: done.
  2: { apply stops_app_nonempty; [done|].
       eapply Forall_impl; [exact Hallname|]. apply ident_char_not_space. }
  rewrite bool_decide_eq_false_2 by done.
  rewrite (span_app is_ident_char name).
  2: done.
  2: { destruct Hall3 as [|c ws3 Hc _]; [reflexivity|].
       simpl. by apply space_not_ident_char. }
  rewrite bool_decide_eq_false_2 by done.
  rewrite (span_app is_space ws3) by done.
  reflexivity.
Qed.

Lemma matches_base_shape (s : pystr) (m : base_match) :
  BASE_STAT_PATTERN_match s = Some m ->
  exists ws1 ws2, base_shape s ws1 (group1 m) ws2 (group2 m) (gap m) (tail m).
Proof.
  unfold BASE_STAT_PATTERN_match.
  destruct (startswith s (py "base")) eqn:Hbase; [|discriminate].
  apply startswith_inv in Hbase.
  change (length (py "base")) with 4%nat in Hbase.
  destruct (span_spec is_space (drop 4 s)) as (Heq1 & Hall1 & _).
  destruct (span is_space (drop 4 s)) as [ws1 s2]; simpl in *.
  case_bool_decide as Hws1; [discriminate|].
  destruct (span_spec non_space s2) as (Heq2 & Hall2 & _).
  destruct (span non_space s2) as [tok s3]; simpl in *.
  case_bool_decide as Htok; [discriminate|].
  destruct (span_spec is_space s3) as (Heq3 & Hall3 & _).
  destruct (span is_space s3) as [ws2 s4]; simpl in *.
  case_bool_decide as Hws2; [discriminate|].
  destruct (span_spec is_ident_char s4) as (Heq4 & Hall4 & _).
  destruct (span is_ident_char s4) as [name s5]; simpl in *.
  case_bool_decide as Hname; [discriminate|].
  destruct (span_spec is_space s5) as (Heq5 & Hall5 & _).
  destruct (span is_space s5) as [ws3 s6]; simpl in *.
  destruct s6 as [|c rest]; [discriminate|].
  destruct (N.eqb_spec c 40) as [->|]; [|discriminate].
  intros [= <-]; simpl.
  exists ws1, ws2. unfold base_shape.
  split; [|by rewrite all_non_space_spec].
  rewrite Hbase, Heq1, Heq2, Heq3, Heq4, Heq5. reflexivity.
Qed.

Lemma declaration_spec (line tok name : pystr) :
  declaration line = Some (tok, name) <-> code_declaration_line line tok name.
Proof.
  unfold declaration, code_declaration_line. split.
  - destruct (startswith (strip line) (py "base ")) eqn:Hstart; [|discriminate].
    simpl. destruct (BASE_STAT_PATTERN_match (strip line)) as [m|] eqn:Hmatch;
      [|discriminate].
    intros [= <- <-].
    destruct (matches_base_shape _ _ Hmatch) as (ws1 & ws2 & Hshape).
    assert (exists ws1', ws1 = 32 :: ws1') as [ws1' ->].
    { destruct Hshape as (Heq & Hne & _).
      apply startswith_inv in Hstart. rewrite Heq in Hstart.
      destruct ws1 as [|c ws1]; [done|].
      injection Hstart as ->. by exists ws1. }
    by exists ws1', ws2, (gap m), (tail m).
  - intros (ws1 & ws2 & ws3 & rest & Hshape).
    rewrite (base_shape_matches _ _ _ _ _ _ _ Hshape).
    destruct Hshape as (-> & _).
    change (py "base" ++ (32 :: ws1) ++ ?x) with (py "base " ++ ws1 ++ x).
    by rewrite startswith_app.
Qed.

End Pattern.

(** ** The schema compiler *)

Lemma parse_stats_file_snoc (lines : list pystr) (line : pystr) :
  parse_stats_file (lines ++ [line])
  = match declaration line with
    | None => parse_stats_file lines
    | Some (type_token, stat_name) =>
        <[stat_name := parse_type type_token]> (parse_stats_file lines)
    end.
Proof. unfold parse_stats_file. by rewrite fold_left_app. Qed.

Lemma last_declared_snoc (name : pystr) (lines : list pystr) (line : pystr) :
  last_declared name (lines ++ [line])
  = match declaration line with
    | Some (tok, n) => if str_eqb n name then Some tok else last_declared name lines
    | None => last_declared name lines
    end.
Proof.
  unfold last_declared. rewrite omap_app. simpl.
  destruct (declaration line) as [[tok n]|]; simpl.
  - destruct (str_eqb n name); simpl; [apply last_snoc|by rewrite app_nil_r].
  - by rewrite app_nil_r.
Qed.

Lemma parse_stats_file_lookup (lines : list pystr) (name : pystr) :
  parse_stats_file lines !! name = parse_type <$> last_declared name lines.
Proof.
  induction lines as [|line lines IH] using rev_ind; [reflexivity|].
  rewrite parse_stats_file_snoc, last_declared_snoc.
  destruct (declaration line) as [[tok n]|]; [|exact IH].
  destruct (str_eqb n name) eqn:Heq.
  - apply str_eqb_eq in Heq as ->. by rewrite lookup_insert_eq.
  - rewrite lookup_insert_ne; [exact IH|].
    intros ->. by rewrite str_eqb_refl in Heq.
Qed.

(** C7, as the code has it. A line contributes a declaration exactly when,
    stripped of surrounding whitespace, it reads: [base], a space character
    and possibly more whitespace, a type token without whitespace,
    whitespace, an identifier of letters, digits and underscores, optional
    whitespace, an opening parenthesis.  Every other line leaves the schema
    as it is, a declaring line sets its name to the parsed type over any
    earlier entry, and so the schema gives each name the type of the last
    line that declares it. *)
Theorem schema_compiler_last_declaration_wins (lines : list pystr)
    (line tok name : pystr) :
  (declaration line = Some (tok, name) <-> code_declaration_line line tok name)
  /\ (declaration line = None ->
      parse_stats_file (lines ++ [line]) = parse_stats_file lines)
  /\ (declaration line = Some (tok, name) ->
      parse_stats_file (lines ++ [line])
      = <[name := parse_type tok]> (parse_stats_file lines))
  /\ parse_stats_file lines !! name = parse_type <$> last_declared name lines.
Proof.
  split; [apply declaration_spec|].
  split; [|split].
  - intros Hnone. by rewrite parse_stats_file_snoc, Hnone.
  - intros Hsome. by rewrite parse_stats_file_snoc, Hsome.
  - apply parse_stats_file_lookup.
Qed.

Lemma schema_compiler_last_declaration_wins_witness :
  declaration (py "  base string hp (0)") = Some (py "string", py "hp")
  /\ code_declaration_line (py "  base string hp (0)") (py "string") (py "hp")
  /\ parse_stats_file ([py "base integer hp(10)"; py "# a comment"]
                       ++ [py "  base string hp (0)"])
     = <[py "hp" := parse_type (py "string")]>
         (parse_stats_file [py "base integer hp(10)"; py "# a comment"])
  /\ parse_stats_file [py "base integer hp(10)"; py "# a comment";
                       py "  base string hp (0)"] !! py "hp"
     = Some (parse_type (py "string")).
Proof.
  destruct (schema_compiler_last_declaration_wins
              [py "base integer hp(10)"; py "# a comment"]
              (py "  base string hp (0)") (py "string") (py "hp"))
    as (Hshape & _ & Hinsert & _).
  assert (Hdecl : declaration (py "  base string hp (0)") = Some (py "string", py "hp"))
    by (vm_compute; reflexivity).
  split; [exact Hdecl|].
  split; [exact (proj1 Hshape Hdecl)|].
  split; [exact (Hinsert Hdecl)|].
  vm_compute. reflexivity.
Defined.

(** C7, as stated, fails: each of these two lines gives the schema an entry
    for [hp], yet neither reads as the pattern of the specification, the
    first because whitespace separates the identifier from the parenthesis,
    the second because it does not begin with the keyword. *)
Lemma declaration_not_of_the_stated_pattern :
  (parse_stats_file [py "base integer hp (10)"] !! py "hp"
     = Some (mkStatType (py "integer") false None)
   /\ forall tok name, ~ spec_declaration_line (py "base integer hp (10)") tok name)
  /\ (parse_stats_file [py "  base integer hp(10)"] !! py "hp"
        = Some (mkStatType (py "integer") false None)
      /\ forall tok name, ~ spec_declaration_line (py "  base integer hp(10)") tok name).
Proof.
  split; (split; [vm_compute; reflexivity|]).
  - intros tok name (ws1 & ws2 & rest & Hshape).
    apply base_shape_matches in Hshape.
    vm_compute in Hshape. discriminate.
  - intros tok name (ws1 & ws2 & rest & Hshape).
    destruct Hshape as (Heq & _). vm_compute in Heq. discriminate.
Qed.

(** * Further properties *)

(** ** More on the type grammar *)

Lemma endswith_spec (s suffix : pystr) :
  endswith s suffix = true <-> exists pre, s = pre ++ suffix.
Proof.
  split.
  - unfold endswith. rewrite andb_true_iff, str_eqb_eq. intros [_ Hdrop].
    exists (take (length s - length suffix) s).
    rewrite <- Hdrop at 2. symmetry. apply take_drop.
  - intros [pre ->]. apply endswith_app.
Qed.

Lemma endswith_last_differs (s suffix : pystr) (c d : char) :
  c <> d -> endswith (s ++ [c]) (suffix ++ [d]) = false.
Proof.
  intros Hne. apply not_true_is_false. rewrite endswith_spec.
  intros [pre Heq]. rewrite app_assoc in Heq.
  apply app_inj_tail in Heq as [_ Heq]. done.
Qed.

Lemma slice_strips_suffix (s suffix : pystr) :
  slice_to_end_minus 0 (length suffix) (s ++ suffix) = s.
Proof.
  unfold slice_to_end_minus. rewrite length_app.
  replace (length s + length suffix - length suffix)%nat with (length s) by lia.
  by rewrite take_app_length.
Qed.

Lemma last_array_marker (t : pystr) : last (t ++ py "[]") = Some 93.
Proof.
  change (py "[]") with ([91] ++ [93]). rewrite app_assoc. apply last_snoc.
Qed.

Lemma array_marker_not_literal (t literal : pystr) :
  last literal <> Some 93 -> str_eqb (t ++ py "[]") literal = false.
Proof.
  intros Hlast. apply str_eqb_neq. intros Heq. apply Hlast.
  by rewrite <- Heq, last_array_marker.
Qed.

(** X1. Whatever the token, the kind of the parsed descriptor is one of the six
    kind names, and a resource kind is recorded only for kind [resource]. *)
Theorem parse_type_kinds (type_token : pystr) :
  kind (parse_type type_token)
    ∈ [py "resource"; py "string"; py "bool"; py "integer"; py "photo"; py "unknown"]
  /\ (resource_type (parse_type type_token) <> None ->
      kind (parse_type type_token) = py "resource").
Proof.
  unfold parse_type.
  destruct (startswith _ (py "resource<") && _); [split; [set_solver|done]|].
  destruct (str_eqb _ (py "resource")); [split; [set_solver|done]|].
  destruct (is_primitive_name _) eqn:Hprim; [|split; [set_solver|done]].
  split; [|done]. simpl. unfold is_primitive_name in Hprim.
  repeat (apply orb_true_iff in Hprim as [Hprim|Hprim]);
    apply str_eqb_eq in Hprim; rewrite Hprim; set_solver.
Qed.

Lemma slice_between (before inner after : pystr) :
  slice_to_end_minus (length before) (length after) (before ++ inner ++ after) = inner.
Proof.
  unfold slice_to_end_minus. rewrite app_assoc, length_app.
  replace (length (before ++ inner) + length after - length after)%nat
    with (length (before ++ inner)) by lia.
  by rewrite take_app_length, drop_app_length.
Qed.

Lemma slice_resource_name (name : pystr) :
  slice_to_end_minus (length (py "resource<")) 1 (py "resource<" ++ name ++ py ">")
  = name.
Proof. exact (slice_between (py "resource<") name (py ">")). Qed.

(** X2. The name between the brackets of [resource<...>] comes back as the
    resource kind, whatever it is, with and without the array marker. *)
Theorem parse_type_resource_name (name : pystr) :
  parse_type (py "resource<" ++ name ++ py ">")
  = mkStatType (py "resource") false (Some name)
  /\ parse_type ((py "resource<" ++ name ++ py ">") ++ py "[]")
     = mkStatType (py "resource") true (Some name).
Proof.
  split.
  - unfold parse_type.
    replace (endswith (py "resource<" ++ name ++ py ">") (py "[]")) with false.
    + rewrite startswith_app.
      rewrite slice_resource_name.
      by rewrite (app_assoc (py "resource<") name (py ">")), endswith_app.
    + symmetry. rewrite (app_assoc (py "resource<") name (py ">")).
      apply (endswith_last_differs _ [91] 62 93). done.
  - unfold parse_type. rewrite endswith_app.
    rewrite (slice_strips_suffix _ (py "[]")).
    rewrite startswith_app.
    rewrite slice_resource_name.
    by rewrite (app_assoc (py "resource<") name (py ">")), endswith_app.
Qed.

(** X3. The array marker only sets the flag: a token that does not itself end
    in the marker and the same token followed by [[]] get the same kind and
    resource kind, so the element type of the array is the parse of the
    token. *)
Theorem parse_type_array_of (type_token : pystr) :
  endswith type_token (py "[]") = false ->
  parse_type (type_token ++ py "[]")
  = mkStatType (kind (parse_type type_token)) true
      (resource_type (parse_type type_token))
  /\ element_type (parse_type (type_token ++ py "[]")) = parse_type type_token.
Proof.
  intros Hscalar.
  assert (Hparsed : parse_type (type_token ++ py "[]")
    = mkStatType (kind (parse_type type_token)) true
        (resource_type (parse_type type_token))).
  { unfold parse_type. rewrite endswith_app, Hscalar.
    rewrite (slice_strips_suffix _ (py "[]")).
    repeat case_match; reflexivity. }
  split; [exact Hparsed|].
  rewrite Hparsed. unfold element_type; simpl.
  pose proof (parse_type_is_array type_token) as Harray. rewrite Hscalar in Harray.
  destruct (parse_type type_token); simpl in *. by rewrite Harray.
Qed.

Lemma parse_type_array_of_witness :
  endswith (py "resource<sword>") (py "[]") = false
  /\ element_type (parse_type (py "resource<sword>" ++ py "[]"))
     = parse_type (py "resource<sword>").
Proof.
  split; [vm_compute; reflexivity|].
  apply (parse_type_array_of (py "resource<sword>")). vm_compute; reflexivity.
Defined.

(** X4. A token with two array markers is of no known type: whatever precedes
    the markers, it parses to an array of kind [unknown]. *)
Theorem parse_type_nested_array_unknown (type_token : pystr) :
  parse_type (type_token ++ py "[]" ++ py "[]") = mkStatType (py "unknown") true None.
Proof.
  unfold parse_type. rewrite app_assoc, endswith_app.
  rewrite (slice_strips_suffix _ (py "[]")).
  replace (endswith (type_token ++ py "[]") (py ">")) with false.
  2: { symmetry. change (py "[]") with ([91] ++ [93]). rewrite app_assoc.
       apply (endswith_last_differs _ [] 93 62). done. }
  rewrite andb_false_r.
  unfold is_primitive_name.
  rewrite !array_marker_not_literal by (vm_compute; discriminate).
  reflexivity.
Qed.

(** ** More on the schema compiler *)

Lemma lstrip_app (s t : pystr) :
  lstrip (s ++ t) = match lstrip s with [] => lstrip t | _ => lstrip s ++ t end.
Proof.
  induction s as [|c s IH]; simpl; [by destruct (lstrip t)|].
  destruct (is_space c); [exact IH|reflexivity].
Qed.

Lemma lstrip_all_space (ws : pystr) : all_space ws -> lstrip ws = [].
Proof. induction 1 as [|c ws Hc _ IH]; simpl; [reflexivity|by rewrite Hc]. Qed.

Lemma lstrip_space_app (ws s : pystr) : all_space ws -> lstrip (ws ++ s) = lstrip s.
Proof. intros Hws. by rewrite lstrip_app, (lstrip_all_space _ Hws). Qed.

Lemma rstrip_app_space (s ws : pystr) : all_space ws -> rstrip (s ++ ws) = rstrip s.
Proof.
  intros Hws. unfold rstrip. rewrite rev_app_distr, lstrip_space_app; [reflexivity|].
  unfold all_space. by apply Forall_rev.
Qed.

Lemma strip_surrounding_space (ws line ws' : pystr) :
  all_space ws -> all_space ws' -> strip (ws ++ line ++ ws') = strip line.
Proof.
  intros Hws Hws'. unfold strip.
  rewrite (lstrip_space_app _ _ Hws), lstrip_app.
  destruct (lstrip line) as [|c rest] eqn:Hline.
  - by rewrite (lstrip_all_space _ Hws').
  - by apply rstrip_app_space.
Qed.

(** X5. Indentation and trailing blanks do not matter: a line surrounded by any
    whitespace declares what the line itself declares, and the schema built
    from the padded line is the same. *)
Theorem declaration_ignores_surrounding_space (ws line ws' : pystr)
    (lines : list pystr) :
  all_space ws -> all_space ws' ->
  declaration (ws ++ line ++ ws') = declaration line
  /\ parse_stats_file (lines ++ [ws ++ line ++ ws']) = parse_stats_file (lines ++ [line]).
Proof.
  intros Hws Hws'.
  assert (Hdecl : declaration (ws ++ line ++ ws') = declaration line)
    by (unfold declaration; by rewrite strip_surrounding_space).
  split; [exact Hdecl|]. by rewrite !parse_stats_file_snoc, Hdecl.
Qed.

Lemma declaration_ignores_surrounding_space_witness :
  (all_space (py "    ") /\ all_space [9; 13])
  /\ declaration (py "    " ++ py "base integer hp(10)" ++ [9; 13])
     = Some (py "integer", py "hp").
Proof.
  assert (Hws : all_space (py "    ")) by (repeat constructor).
  assert (Hws' : all_space [9; 13]) by (repeat constructor).
  split; [by split|].
  destruct (declaration_ignores_surrounding_space (py "    ")
              (py "base integer hp(10)") [9; 13] [] Hws Hws') as [Hdecl _].
  rewrite Hdecl. vm_compute. reflexivity.
Defined.

(** X6. Every entry of a compiled schema comes from a line of the file: the
    line declares that name with a type token whose parse is the entry.
    The name is a non-empty identifier and the token is non-empty and free
    of whitespace. *)
Theorem schema_entries_come_from_lines (lines : list pystr) (name : pystr)
    (stat_type : StatType) :
  parse_stats_file lines !! name = Some stat_type ->
  exists line tok,
    In line lines
    /\ declaration line = Some (tok, name)
    /\ stat_type = parse_type tok
    /\ name <> [] /\ all_ident name
    /\ tok <> [] /\ all_non_space tok.
Proof.
  rewrite parse_stats_file_lookup. unfold last_declared.
  destruct (last _) as [tok|] eqn:Hlast; [|discriminate].
  intros [= <-].
  apply last_Some_elem_of, list_elem_of_omap in Hlast as (line & Hin & Hline).
  destruct (declaration line) as [[tok' n]|] eqn:Hdecl; [|discriminate].
  destruct (str_eqb n name) eqn:Hname; [|discriminate].
  apply str_eqb_eq in Hname as ->. injection Hline as ->.
  exists line, tok. apply list_elem_of_In in Hin.
  pose proof (proj1 (declaration_spec _ _ _) Hdecl)
    as (ws1 & ws2 & ws3 & rest & _ & _ & _ & Htok & Halltok & _ & _ & Hname & Hallname & _).
  repeat split; assumption.
Qed.

Lemma schema_entries_come_from_lines_witness :
  parse_stats_file [py "base string name()"; py "base resource<item>[] bag ()"]
    !! py "bag"
  = Some (mkStatType (py "resource") true (Some (py "item")))
  /\ exists line tok,
       In line [py "base string name()"; py "base resource<item>[] bag ()"]
       /\ declaration line = Some (tok, py "bag")
       /\ mkStatType (py "resource") true (Some (py "item")) = parse_type tok
       /\ py "bag" <> [] /\ all_ident (py "bag")
       /\ tok <> [] /\ all_non_space tok.
Proof.
  assert (Hentry :
    parse_stats_file [py "base string name()"; py "base resource<item>[] bag ()"]
      !! py "bag"
    = Some (mkStatType (py "resource") true (Some (py "item"))))
    by (vm_compute; reflexivity).
  split; [exact Hentry|].
  exact (schema_entries_come_from_lines _ _ _ Hentry).
Defined.

(** ** The registry *)

Lemma load_schema_snoc (resources : list (pystr * list pystr))
    (resource_id : pystr) (lines : list pystr) :
  load_schema (resources ++ [(resource_id, lines)])
  = <[resource_id := parse_stats_file lines]> (load_schema resources).
Proof. unfold load_schema. by rewrite fold_left_app. Qed.

(** X7. The registry holds, for each resource identifier, the schema compiled
    from the last directory of that name, and nothing for an identifier no
    directory has: a later directory replaces an earlier one of the same
    name whole, without merging the two schemas. *)
Theorem load_schema_lookup (resources : list (pystr * list pystr))
    (resource_id : pystr) :
  load_schema resources !! resource_id
  = parse_stats_file
      <$> last (omap (fun '(rid, lines) =>
                        if str_eqb rid resource_id then Some lines else None)
                     resources)
  /\ (load_schema resources !! resource_id = None
      <-> forall lines, ~ In (resource_id, lines) resources).
Proof.
  assert (Hlookup : forall resources,
    load_schema resources !! resource_id
    = parse_stats_file
        <$> last (omap (fun '(rid, lines) =>
                          if str_eqb rid resource_id then Some lines else None)
                       resources)).
  { clear resources. intros resources.
    induction resources as [|[rid lines] resources IH] using rev_ind; [reflexivity|].
    rewrite load_schema_snoc, omap_app. simpl.
    destruct (str_eqb rid resource_id) eqn:Hrid; simpl.
    - apply str_eqb_eq in Hrid as ->. by rewrite lookup_insert_eq, last_snoc.
    - rewrite app_nil_r, lookup_insert_ne; [exact IH|].
      intros ->. by rewrite str_eqb_refl in Hrid. }
  split; [apply Hlookup|].
  rewrite Hlookup, fmap_None, last_None. split.
  - intros Hnone lines Hin.
    assert (Helem : lines ∈ omap (fun '(rid, lines) =>
                        if str_eqb rid resource_id then Some lines else None)
                      resources).
    { apply list_elem_of_omap. exists (resource_id, lines).
      split; [by apply list_elem_of_In|]. by rewrite str_eqb_refl. }
    rewrite Hnone in Helem. by apply not_elem_of_nil in Helem.
  - intros Hnone.
    destruct (omap _ resources) as [|lines rest] eqn:Homap; [reflexivity|].
    assert (Helem : lines ∈ omap (fun '(rid, lines) =>
                        if str_eqb rid resource_id then Some lines else None)
                      resources) by (rewrite Homap; left).
    apply list_elem_of_omap in Helem as ([rid lines'] & Hin & Hsome).
    destruct (str_eqb rid resource_id) eqn:Hrid; [|discriminate].
    apply str_eqb_eq in Hrid as ->. injection Hsome as ->.
    exfalso. apply (Hnone lines). by apply list_elem_of_In.
Qed.

(** ** Error locations *)

Lemma join_snoc (sep : pystr) (parts : list pystr) (p last_part : pystr) :
  join sep ((p :: parts) ++ [last_part]) = join sep (p :: parts) ++ sep ++ last_part.
Proof.
  revert p. induction parts as [|q parts IH]; intros p; [reflexivity|].
  change (join sep ((p :: q :: parts) ++ [last_part]))
    with (p ++ sep ++ join sep ((q :: parts) ++ [last_part])).
  rewrite IH.
  change (join sep (p :: q :: parts)) with (p ++ sep ++ join sep (q :: parts)).
  by rewrite <- !app_assoc.
Qed.

(** X8. Pushing a segment on the path stack extends the rendered location on
    the right: the location of the longer stack is the location of the
    stack, the separator, and the segment.  The empty stack renders as
    [<root>], which does not prefix the locations below it. *)
Theorem format_path_push (path_stack : list pystr) (segment : pystr) :
  format_path [] = py "<root>"
  /\ format_path ([] ++ [segment]) = segment
  /\ (path_stack <> [] ->
      format_path (path_stack ++ [segment])
      = format_path path_stack ++ py " -> " ++ segment).
Proof.
  split; [reflexivity|]. split; [reflexivity|].
  destruct path_stack as [|p parts]; [done|]. intros _.
  unfold format_path.
  rewrite join_snoc. reflexivity.
Qed.

Lemma format_path_push_witness :
  [py "resource_id='orc'"] <> []
  /\ format_path ([py "resource_id='orc'"] ++ [py "stats.hp.value"])
     = py "resource_id='orc' -> stats.hp.value".
Proof.
  assert (Hne : [py "resource_id='orc'"] <> []) by discriminate.
  split; [exact Hne|].
  destruct (format_path_push [py "resource_id='orc'"] (py "stats.hp.value"))
    as (_ & _ & Hpush).
  rewrite (Hpush Hne). vm_compute. reflexivity.
Defined.

(** ** Validations do not interfere *)

Lemma dict_get_elem key d :
  dict_contains key d = true -> exists k, In (k, dict_get key d) d.
Proof.
  unfold dict_contains, dict_get.
  induction d as [|[k v] d IH]; simpl; [discriminate|].
  destruct (str_eqb k key).
  - intros _. exists k. by left.
  - intros H. destruct (IH H) as [k' Hk']. exists k'. by right.
Qed.

Lemma framed_skip : framed (fun σ => σ).
Proof. intros [schema errors]. unfold fresh; simpl. by rewrite app_nil_r. Qed.

Lemma framed_add_error file_path repo_root path_stack msg :
  framed (fun σ => add_error σ file_path repo_root path_stack msg).
Proof. intros σ. reflexivity. Qed.

Lemma framed_schema (f : store -> store) (σ : store) :
  framed f -> st_schema (f σ) = st_schema σ.
Proof. intros Hf. by rewrite (Hf σ). Qed.

Lemma framed_fresh (f : store -> store) (σ : store) :
  framed f -> fresh (f σ) = fresh σ.
Proof. intros Hf. unfold fresh. by rewrite (framed_schema f σ Hf). Qed.

Lemma framed_then (f g : store -> store) :
  framed f -> framed g -> framed (fun σ => g (f σ)).
Proof.
  intros Hf Hg σ.
  rewrite (Hg (f σ)), (Hg (f (fresh σ))).
  rewrite !(framed_fresh f) by exact Hf.
  rewrite (framed_schema f σ Hf).
  rewrite (Hf σ). simpl.
  rewrite (Hf (fresh σ)). simpl. by rewrite app_assoc.
Qed.

(** A loop of framed steps reports the errors of its steps, each taken on
    its own, one after the other. *)
Lemma fold_left_framed {B} (f : store -> B -> store) (l : list B) (σ : store) :
  (forall b, In b l -> framed (fun σ => f σ b)) ->
  fold_left f l σ
  = mkStore (st_schema σ)
      (st_errors σ ++ concat (map (fun b => st_errors (f (fresh σ) b)) l)).
Proof.
  revert σ. induction l as [|b l IH]; intros σ Hframed; simpl.
  - destruct σ; simpl. by rewrite app_nil_r.
  - assert (Hb : framed (fun σ => f σ b)) by (apply Hframed; by left).
    rewrite IH by (intros b' Hin; apply Hframed; by right).
    rewrite (framed_fresh (fun σ => f σ b) σ Hb).
    rewrite (framed_schema (fun σ => f σ b) σ Hb).
    rewrite (Hb σ). simpl. by rewrite <- app_assoc.
Qed.

Lemma for_enumerate_framed {A} (body : nat -> A -> store -> store)
    (items : list A) (idx : nat) :
  (forall i item, In item items -> framed (body i item)) ->
  framed (for_enumerate body items idx).
Proof.
  revert idx. induction items as [|item items IH]; intros idx Hframed.
  - apply framed_skip.
  - change (for_enumerate body (item :: items) idx)
      with (fun σ => for_enumerate body items (S idx) (body idx item σ)).
    apply (framed_then (body idx item) (for_enumerate body items (S idx))).
    + apply Hframed. by left.
    + apply IH. intros i x Hin. apply Hframed. by right.
Qed.

Section Framed.

Variable vv : json -> StatType -> pystr -> pystr -> list pystr -> store -> store.

Lemma validate_stat_framed stats_schema file_path repo_root current_stack
    stat_name stat_value :
  (forall value, (json_size value < json_size stat_value)%nat ->
     forall stat_type path_stack,
       framed (vv value stat_type file_path repo_root path_stack)) ->
  framed (fun σ => validate_stat vv stats_schema file_path repo_root current_stack σ
                     stat_name stat_value).
Proof.
  intros Hvv σ. rewrite !validate_stat_eq.
  destruct (bool_decide _); [apply framed_skip|].
  destruct (stats_schema !! stat_name); [|reflexivity].
  destruct stat_value as [| | | | | |entry]; try reflexivity.
  destruct (dict_contains (py "value") entry) eqn:Hcontains; [|reflexivity].
  destruct (dict_get_elem _ _ Hcontains) as [k Hin].
  apply Hvv. by apply (json_size_dict_elem k).
Qed.

Lemma validate_resource_instance_with_framed resource_obj file_path repo_root
    path_stack :
  (forall value, (json_size value < json_size resource_obj)%nat ->
     forall stat_type path_stack,
       framed (vv value stat_type file_path repo_root path_stack)) ->
  framed (validate_resource_instance_with vv resource_obj file_path repo_root
            path_stack).
Proof.
  intros Hvv σ.
  destruct resource_obj as [| | | | |items|obj]; try reflexivity.
  rewrite !validate_resource_instance_with_eq.
  destruct (dict_get (py "resource_id") obj) as [| | | |rid| |]; try reflexivity.
  destruct (bool_decide (rid = [])); [reflexivity|].
  change (st_schema (fresh σ)) with (st_schema σ).
  destruct (st_schema σ !! rid) as [stats_schema|]; [|reflexivity].
  destruct (dict_get (py "stats") obj) as [| | | | | |stats] eqn:Hstats;
    try reflexivity.
  assert (Hin : exists k, In (k, JDict stats) obj).
  { destruct (dict_contains (py "stats") obj) eqn:Hcontains.
    - rewrite <- Hstats. by apply dict_get_elem.
    - by rewrite (dict_get_missing _ _ Hcontains) in Hstats. }
  destruct Hin as [k Hin].
  assert (Hsteps : forall entry, In entry stats ->
    framed (fun σ => (fun σ '(stat_name, stat_value) =>
                        validate_stat vv stats_schema file_path repo_root
                          (path_stack ++ [resource_label obj]) σ stat_name stat_value)
                       σ entry)).
  { intros [stat_name stat_value] Hentry. apply validate_stat_framed.
    intros value Hlt. apply Hvv.
    pose proof (json_size_dict_elem _ _ _ Hentry).
    pose proof (json_size_dict_elem _ _ _ Hin). lia. }
  rewrite (fold_left_framed _ stats σ Hsteps).
  rewrite (fold_left_framed _ stats (fresh σ) Hsteps).
  reflexivity.
Qed.

End Framed.

Lemma validate_value_framed value :
  forall stat_type file_path repo_root path_stack,
    framed (validate_value value stat_type file_path repo_root path_stack).
Proof.
  induction value as [value IH] using json_size_ind.
  intros stat_type file_path repo_root path_stack.
  pose proof framed_skip as Hskip.
  destruct value as [| | | | |items|obj]; simpl; try exact Hskip;
    destruct (is_array stat_type); try (intros σ; reflexivity);
    repeat (match goal with |- context [if ?c then _ else _] => destruct c end;
            try exact Hskip; try (intros σ; reflexivity)).
  - apply for_enumerate_framed. intros i item Hin.
    destruct (_ && _); [exact Hskip|]. apply IH. by apply json_size_list_elem.
  - apply (framed_then
             (fun σ => match resource_type stat_type with
                       | Some expected =>
                           if negb (bool_decide (expected = []))
                              && negb (eq_str (dict_get (py "resource_id") obj) expected)
                           then add_error σ file_path repo_root path_stack
                                  (MsgExpectedResourceId expected
                                     (dict_get (py "resource_id") obj))
                           else σ
                       | None => σ
                       end)
             (validate_resource_instance_with validate_value (JDict obj)
                file_path repo_root path_stack)).
    + destruct (resource_type stat_type); [|exact Hskip].
      destruct (_ && _); [intros σ; reflexivity|exact Hskip].
    + apply validate_resource_instance_with_framed.
      intros value Hlt st path. by apply IH.
Qed.

Lemma validate_resource_instance_framed resource_obj file_path repo_root path_stack :
  framed (validate_resource_instance resource_obj file_path repo_root path_stack).
Proof.
  apply validate_resource_instance_with_framed.
  intros value _ st path. apply validate_value_framed.
Qed.

Lemma validate_file_framed repo_root file :
  framed (fun σ => validate_file repo_root σ file).
Proof.
  destruct file as [path [data|exc]]; simpl.
  - apply validate_resource_instance_framed.
  - intros σ. reflexivity.
Qed.

(** X9. What a validation reports does not depend on the errors collected
    before it: the outcome is the store it was given, with the errors the
    same call reports from an empty list appended.  This holds for both
    functions and for every argument. *)
Theorem validation_is_independent_of_earlier_errors (value : json)
    (stat_type : StatType) (file_path repo_root : pystr)
    (path_stack : list pystr) (σ : store) :
  validate_value value stat_type file_path repo_root path_stack σ
  = mkStore (st_schema σ)
      (st_errors σ
       ++ st_errors (validate_value value stat_type file_path repo_root path_stack
                       (mkStore (st_schema σ) [])))
  /\ validate_resource_instance value file_path repo_root path_stack σ
     = mkStore (st_schema σ)
         (st_errors σ
          ++ st_errors (validate_resource_instance value file_path repo_root path_stack
                          (mkStore (st_schema σ) []))).
Proof.
  split.
  - apply (validate_value_framed value stat_type file_path repo_root path_stack σ).
  - apply (validate_resource_instance_framed value file_path repo_root path_stack σ).
Qed.

(** X10. A run over several files reports, in the order of the files, the errors
    each file gets when it is validated alone against the same registry:
    files can be validated separately and their error lists joined. *)
Theorem run_is_the_concatenation_of_its_files (repo_root : pystr)
    (instance_files : list (pystr * read_result)) (σ : store) :
  validate_files repo_root instance_files σ
  = mkStore (st_schema σ)
      (st_errors σ
       ++ concat (map (errors_of_file (st_schema σ) repo_root) instance_files)).
Proof.
  unfold validate_files.
  rewrite fold_left_framed by (intros file _; apply validate_file_framed).
  reflexivity.
Qed.


(** ** The statistics of a document *)

(** X12. In a document whose resource kind has a schema and whose [stats] is an
    object, the statistics are checked one by one in the order of the
    object, each on its own: the errors of the document are the errors of
    its entries, joined.  A reserved name contributes nothing, whatever it
    holds; a name the schema does not declare contributes exactly one
    error, and the entries after it are still checked. *)
Theorem statistics_are_checked_independently (obj : list (pystr * json))
    (rid : pystr) (stats_schema : Schema) (stats : list (pystr * json))
    (file_path repo_root : pystr) (path_stack : list pystr) (σ : store) :
  let current_stack := path_stack ++ [resource_label obj] in
  dict_get (py "resource_id") obj = JStr rid ->
  rid <> [] ->
  st_schema σ !! rid = Some stats_schema ->
  dict_get (py "stats") obj = JDict stats ->
  validate_resource_instance (JDict obj) file_path repo_root path_stack σ
  = mkStore (st_schema σ)
      (st_errors σ
       ++ concat (map (errors_of_stat (st_schema σ) stats_schema file_path repo_root
                         current_stack) stats))
  /\ (forall stat_name stat_value,
        stat_name ∈ META_STATS ->
        errors_of_stat (st_schema σ) stats_schema file_path repo_root current_stack
          (stat_name, stat_value) = [])
  /\ (forall stat_name stat_value,
        stat_name ∉ META_STATS -> stats_schema !! stat_name = None ->
        errors_of_stat (st_schema σ) stats_schema file_path repo_root current_stack
          (stat_name, stat_value)
        = [mkError file_path repo_root
             (format_path (current_stack ++ [py "stats." ++ stat_name]))
             (Msg (py "Unknown stat for this resource"))]).
Proof.
  intros current_stack Hrid Hne Hschema Hstats. split; [|split].
  - unfold validate_resource_instance.
    rewrite validate_resource_instance_with_eq, Hrid.
    rewrite bool_decide_eq_false_2 by exact Hne.
    rewrite Hschema, Hstats.
    rewrite fold_left_framed.
    + f_equal. f_equal. f_equal. apply map_ext. by intros [stat_name stat_value].
    + intros [stat_name stat_value] _. apply validate_stat_framed.
      intros value _ st path. apply validate_value_framed.
  - intros stat_name stat_value Hmeta. unfold errors_of_stat. simpl.
    rewrite validate_stat_eq. by rewrite bool_decide_eq_true_2.
  - intros stat_name stat_value Hmeta Hnone. unfold errors_of_stat. simpl.
    rewrite validate_stat_eq. rewrite bool_decide_eq_false_2 by exact Hmeta.
    by rewrite Hnone.
Qed.

Lemma statistics_are_checked_independently_witness :
  let document :=
    [(py "resource_id", JStr (py "orc"));
     (py "stats", JDict [(py "id", JInt 7);
                         (py "speed", JDict [(py "value", JInt 30)]);
                         (py "hp", JDict [(py "value", JInt 12)])])] in
  (py "orc" <> [] /\ orc_registry !! py "orc" = Some {[ py "hp" := parse_type (py "integer") ]})
  /\ st_errors (validate_resource_instance (JDict document) (py "orc.json") (py "/repo")
                  [] (mkStore orc_registry []))
     = [mkError (py "orc.json") (py "/repo") (py "resource_id='orc' -> stats.speed")
          (Msg (py "Unknown stat for this resource"))].
Proof.
  intros document.
  assert (Hne : py "orc" <> []) by (vm_compute; discriminate).
  assert (Hschema : orc_registry !! py "orc" = Some {[ py "hp" := parse_type (py "integer") ]})
    by (vm_compute; reflexivity).
  split; [by split|].
  destruct (statistics_are_checked_independently document (py "orc")
              {[ py "hp" := parse_type (py "integer") ]}
              [(py "id", JInt 7);
               (py "speed", JDict [(py "value", JInt 30)]);
               (py "hp", JDict [(py "value", JInt 12)])]
              (py "orc.json") (py "/repo") [] (mkStore orc_registry []))
    as [Hdoc _]; [reflexivity|exact Hne|exact Hschema|reflexivity|].
  rewrite Hdoc. vm_compute. reflexivity.
Defined.

(** ** Where errors are located *)

Lemma reports_refl P σ : reports P σ σ.
Proof. split; [reflexivity|]. exists []. by rewrite app_nil_r. Qed.

Lemma reports_trans P σ1 σ2 σ3 : reports P σ1 σ2 -> reports P σ2 σ3 -> reports P σ1 σ3.
Proof.
  intros [Hs12 (new12 & He12 & HP12)] [Hs23 (new23 & He23 & HP23)].
  split; [congruence|]. exists (new12 ++ new23).
  split; [by rewrite He23, He12, app_assoc|by apply Forall_app].
Qed.

Lemma reports_weaken (P Q : error -> Prop) σ σ' :
  (forall e, P e -> Q e) -> reports P σ σ' -> reports Q σ σ'.
Proof.
  intros HPQ [Hs (new & He & HP)]. split; [exact Hs|].
  exists new. split; [exact He|]. by eapply Forall_impl.
Qed.

Lemma located_under_here file_path repo_root path_stack msg :
  located_under file_path repo_root path_stack
    (mkError file_path repo_root (format_path path_stack) msg).
Proof. repeat split. exists []. by rewrite app_nil_r. Qed.

Lemma located_under_push file_path repo_root path_stack segment e :
  located_under file_path repo_root (path_stack ++ [segment]) e ->
  located_under file_path repo_root path_stack e.
Proof.
  intros (Hfile & Hroot & segments & Hloc). repeat split; try assumption.
  exists (segment :: segments). by rewrite Hloc, <- app_assoc.
Qed.

Lemma reports_add_error file_path repo_root path_stack msg σ :
  reports (located_under file_path repo_root path_stack) σ
    (add_error σ file_path repo_root path_stack msg).
Proof.
  split; [reflexivity|]. eexists. split; [reflexivity|].
  constructor; [apply located_under_here|constructor].
Qed.

Lemma reports_push file_path repo_root path_stack segment σ σ' :
  reports (located_under file_path repo_root (path_stack ++ [segment])) σ σ' ->
  reports (located_under file_path repo_root path_stack) σ σ'.
Proof. apply reports_weaken. intros e. apply located_under_push. Qed.

Lemma reports_add_error_below file_path repo_root path_stack segment msg σ :
  reports (located_under file_path repo_root path_stack) σ
    (add_error σ file_path repo_root (path_stack ++ [segment]) msg).
Proof. eapply reports_push. apply reports_add_error. Qed.

Section Located.

Variable vv : json -> StatType -> pystr -> pystr -> list pystr -> store -> store.
Variables file_path repo_root : pystr.

Lemma validate_stat_located stats_schema current_stack σ stat_name stat_value :
  (forall value, (json_size value < json_size stat_value)%nat ->
     forall stat_type path_stack σ,
       reports (located_under file_path repo_root path_stack) σ
         (vv value stat_type file_path repo_root path_stack σ)) ->
  reports (located_under file_path repo_root current_stack) σ
    (validate_stat vv stats_schema file_path repo_root current_stack σ
       stat_name stat_value).
Proof.
  intros Hvv. rewrite validate_stat_eq.
  destruct (bool_decide _); [apply reports_refl|].
  destruct (stats_schema !! stat_name); [|apply reports_add_error_below].
  destruct stat_value as [| | | | | |entry]; try apply reports_add_error_below.
  destruct (dict_contains (py "value") entry) eqn:Hcontains;
    [|apply reports_add_error_below].
  destruct (dict_get_elem _ _ Hcontains) as [k Hin].
  eapply reports_push. apply Hvv. by apply (json_size_dict_elem k).
Qed.

Lemma validate_resource_instance_with_located resource_obj path_stack σ :
  (forall value, (json_size value < json_size resource_obj)%nat ->
     forall stat_type path_stack σ,
       reports (located_under file_path repo_root path_stack) σ
         (vv value stat_type file_path repo_root path_stack σ)) ->
  reports (located_under file_path repo_root path_stack) σ
    (validate_resource_instance_with vv resource_obj file_path repo_root path_stack σ).
Proof.
  intros Hvv.
  destruct resource_obj as [| | | | |items|obj]; try apply reports_add_error.
  rewrite validate_resource_instance_with_eq.
  destruct (dict_get (py "resource_id") obj) as [| | | |rid| |];
    try apply reports_add_error.
  destruct (bool_decide (rid = [])); [apply reports_add_error|].
  destruct (st_schema σ !! rid) as [stats_schema|]; [|apply reports_add_error_below].
  destruct (dict_get (py "stats") obj) as [| | | | | |stats] eqn:Hstats;
    try apply reports_add_error_below.
  assert (Hin : exists k, In (k, JDict stats) obj).
  { destruct (dict_contains (py "stats") obj) eqn:Hcontains.
    - rewrite <- Hstats. by apply dict_get_elem.
    - by rewrite (dict_get_missing _ _ Hcontains) in Hstats. }
  destruct Hin as [k Hin].
  apply (fold_left_invariant (reports (located_under file_path repo_root path_stack)));
    [apply reports_refl|apply reports_trans|].
  intros σ' [stat_name stat_value] Hentry.
  eapply reports_push.
  apply validate_stat_located. intros value Hlt. apply Hvv.
  pose proof (json_size_dict_elem _ _ _ Hentry).
  pose proof (json_size_dict_elem _ _ _ Hin). lia.
Qed.

End Located.

Lemma validate_value_located file_path repo_root value :
  forall stat_type path_stack σ,
    reports (located_under file_path repo_root path_stack) σ
      (validate_value value stat_type file_path repo_root path_stack σ).
Proof.
  induction value as [value IH] using json_size_ind.
  intros stat_type path_stack σ.
  pose proof (reports_refl (located_under file_path repo_root path_stack)) as Hrefl.
  pose proof (reports_add_error file_path repo_root path_stack) as Hhere.
  pose proof (reports_add_error_below file_path repo_root path_stack) as Hbelow.
  destruct value as [| | | | |items|obj]; simpl; auto;
    destruct (is_array stat_type); auto;
    repeat (match goal with |- context [if ?c then _ else _] => destruct c end; auto).
  - apply (for_enumerate_invariant
             (reports (located_under file_path repo_root path_stack)));
      [auto|apply reports_trans|].
    intros i item σ' Hin. destruct (_ && _); [auto|].
    eapply reports_push. apply IH. by apply json_size_list_elem.
  - match goal with
      |- reports _ σ (validate_resource_instance_with _ _ _ _ _ ?σ') =>
        apply reports_trans with σ' end.
    + destruct (resource_type stat_type); [|auto]. destruct (_ && _); auto.
    + apply validate_resource_instance_with_located.
      intros value Hlt st path σ'. by apply IH.
Qed.

Lemma validate_resource_instance_located file_path repo_root resource_obj
    path_stack σ :
  reports (located_under file_path repo_root path_stack) σ
    (validate_resource_instance resource_obj file_path repo_root path_stack σ).
Proof.
  apply validate_resource_instance_with_located.
  intros value _ st path σ'. apply validate_value_located.
Qed.

(** X13. Every error a validation appends names the file and the repository
    root it was called with, and is located at the path stack of the call
    or below it: its location is the rendering of that stack extended by
    zero or more segments.  This holds for both functions. *)
Theorem errors_are_located_under_the_call (value : json) (stat_type : StatType)
    (file_path repo_root : pystr) (path_stack : list pystr) (σ : store) :
  (exists new,
     st_errors (validate_value value stat_type file_path repo_root path_stack σ)
     = st_errors σ ++ new
     /\ Forall (located_under file_path repo_root path_stack) new)
  /\ (exists new,
        st_errors (validate_resource_instance value file_path repo_root path_stack σ)
        = st_errors σ ++ new
        /\ Forall (located_under file_path repo_root path_stack) new).
Proof.
  split.
  - apply (validate_value_located file_path repo_root value stat_type path_stack σ).
  - apply (validate_resource_instance_located file_path repo_root value path_stack σ).
Qed.

(** X14. Every error of a run names one of the files of the run: a file that is
    not listed is never reported. *)
Theorem run_errors_name_listed_files (repo_root : pystr)
    (instance_files : list (pystr * read_result)) (schema : Registry) (e : error) :
  In e (st_errors (validate_files repo_root instance_files (mkStore schema []))) ->
  In (err_file e) (map fst instance_files) /\ err_repo_root e = repo_root.
Proof.
  rewrite run_is_the_concatenation_of_its_files. simpl.
  rewrite in_concat. intros (errors & Hfile & He).
  apply in_map_iff in Hfile as ([path read] & <- & Hin).
  assert (Hlocated : Forall (located_under path repo_root []) 
                       (errors_of_file schema repo_root (path, read))).
  { unfold errors_of_file, validate_file. destruct read as [data|exc].
    - destruct (validate_resource_instance_located path repo_root data []
                  (mkStore schema [])) as [_ (new & -> & Hnew)]. exact Hnew.
    - simpl. constructor; [apply located_under_here|constructor]. }
  rewrite List.Forall_forall in Hlocated.
  destruct (Hlocated e He) as (-> & -> & _).
  split; [|reflexivity]. apply in_map_iff. by exists (path, read).
Qed.

Lemma run_errors_name_listed_files_witness :
  let e := mkError (py "orc.json") (py "/repo")
             (py "resource_id='orc' -> stats.hp.value")
             (Msg (py "Expected number, got bool")) in
  In e (st_errors (validate_files (py "/repo") [(py "orc.json", ReadOk orc_document)]
                     (mkStore orc_registry [])))
  /\ In (err_file e) (map fst [(py "orc.json", ReadOk orc_document)]).
Proof.
  intros e.
  assert (Hin : In e (st_errors (validate_files (py "/repo")
                                   [(py "orc.json", ReadOk orc_document)]
                                   (mkStore orc_registry []))))
    by (vm_compute; left; reflexivity).
  split; [exact Hin|].
  exact (proj1 (run_errors_name_listed_files _ _ _ _ Hin)).
Defined.

(** ** Arrays *)

Lemma for_enumerate_snoc {A S} (body : nat -> A -> S -> S) (items : list A)
    (item : A) (idx : nat) (σ : S) :
  for_enumerate body (items ++ [item]) idx σ
  = body (idx + length items)%nat item (for_enumerate body items idx σ).
Proof.
  revert idx σ. induction items as [|x items IH]; intros idx σ.
  - rewrite Nat.add_0_r. reflexivity.
  - change (for_enumerate body ((x :: items) ++ [item]) idx σ)
      with (for_enumerate body (items ++ [item]) (Datatypes.S idx) (body idx x σ)).
    rewrite IH.
    replace (Datatypes.S idx + length items)%nat with (idx + length (x :: items))%nat
      by (simpl; lia).
    reflexivity.
Qed.

Lemma validate_value_array (items : list json) (stat_type : StatType)
    (file_path repo_root : pystr) (path_stack : list pystr) (σ : store) :
  is_array stat_type = true ->
  validate_value (JList items) stat_type file_path repo_root path_stack σ
  = for_enumerate
      (fun idx item σ =>
         if is_none item && str_eqb (kind (element_type stat_type)) (py "resource")
         then σ
         else validate_value item (element_type stat_type) file_path repo_root
                (path_stack ++ [py "[" ++ str_of_nat idx ++ py "]"]) σ)
      items 0%nat σ.
Proof. intros Harray. simpl. rewrite Harray. reflexivity. Qed.

(** X15. Against an array descriptor the elements of a list are checked from
    first to last, each against the element type at the path of its index:
    checking a list with one more element is checking the list and then
    that element.  The empty list passes, and a value that is neither null
    nor a list gets exactly one error whatever the kind. *)
Theorem array_elements_are_checked_in_order (items : list json) (item : json)
    (stat_type : StatType) (file_path repo_root : pystr)
    (path_stack : list pystr) (σ : store) :
  is_array stat_type = true ->
  validate_value (JList []) stat_type file_path repo_root path_stack σ = σ
  /\ validate_value (JList (items ++ [item])) stat_type file_path repo_root path_stack σ
     = validate_value item (element_type stat_type) file_path repo_root
         (path_stack ++ [py "[" ++ str_of_nat (length items) ++ py "]"])
         (validate_value (JList items) stat_type file_path repo_root path_stack σ)
  /\ (forall value,
        value <> JNull -> (forall l, value <> JList l) ->
        validate_value value stat_type file_path repo_root path_stack σ
        = mkStore (st_schema σ)
            (st_errors σ
             ++ [mkError file_path repo_root (format_path path_stack)
                   (Msg (py "Expected array, got " ++ type_name value))])).
Proof.
  intros Harray. split; [by rewrite validate_value_array|]. split.
  - rewrite !validate_value_array by exact Harray.
    rewrite for_enumerate_snoc. simpl.
    destruct (is_none item && _) eqn:Hfast; [|reflexivity].
    apply andb_true_iff in Hfast as [Hnone _].
    destruct item; try discriminate. reflexivity.
  - intros value Hnull Hlist.
    destruct value as [| | | | |l|obj]; simpl; rewrite ?Harray; try reflexivity.
    + done.
    + by destruct (Hlist l).
Qed.

Lemma array_elements_are_checked_in_order_witness :
  is_array (parse_type (py "string[]")) = true
  /\ st_errors (validate_value (JList ([JStr (py "a"); JNull] ++ [JInt 3]))
                  (parse_type (py "string[]")) (py "f.json") (py "/repo")
                  [py "stats.tags.value"] (mkStore ∅ []))
     = [mkError (py "f.json") (py "/repo") (py "stats.tags.value -> [2]")
          (Msg (py "Expected string, got int"))].
Proof.
  split; [vm_compute; reflexivity|].
  destruct (array_elements_are_checked_in_order [JStr (py "a"); JNull] (JInt 3)
              (parse_type (py "string[]")) (py "f.json") (py "/repo")
              [py "stats.tags.value"] (mkStore ∅ [])) as (_ & Hsnoc & _);
    [vm_compute; reflexivity|].
  rewrite Hsnoc. vm_compute. reflexivity.
Defined.

(** ** Kinds without a rule *)

Lemma validate_value_unchecked (value : json) (stat_type : StatType)
    (file_path repo_root : pystr) (path_stack : list pystr) (σ : store) :
  kind stat_type ∉ checked_kinds ->
  is_array stat_type = false ->
  validate_value value stat_type file_path repo_root path_stack σ = σ.
Proof.
  intros Hkind Hscalar.
  assert (Hno : forall name, name ∈ checked_kinds -> str_eqb (kind stat_type) name = false).
  { intros name Hname. apply str_eqb_neq. by intros <-. }
  destruct value; simpl; rewrite ?Hscalar; try reflexivity;
    destruct (str_eqb (kind stat_type) (py "unknown")); try reflexivity;
    (rewrite (Hno (py "string")) by set_solver);
    (rewrite (Hno (py "bool")) by set_solver);
    (rewrite (Hno (py "integer")) by set_solver);
    (rewrite (Hno (py "photo")) by set_solver);
    (rewrite (Hno (py "resource")) by set_solver); reflexivity.
Qed.

(** X16. A descriptor whose kind is none of [string], [bool], [integer], [photo]
    and [resource] accepts every value, and with the array flag every list,
    whatever its elements.  A statistic declared with a doubled array
    marker, such as [integer[][]], is of that sort: any list passes. *)
Theorem unchecked_kinds_accept_everything (stat_type : StatType) (value : json)
    (items : list json) (type_token file_path repo_root : pystr)
    (path_stack : list pystr) (σ : store) :
  (kind stat_type ∉ checked_kinds ->
   (is_array stat_type = false ->
    validate_value value stat_type file_path repo_root path_stack σ = σ)
   /\ (is_array stat_type = true ->
       validate_value (JList items) stat_type file_path repo_root path_stack σ = σ))
  /\ validate_value (JList items) (parse_type (type_token ++ py "[]" ++ py "[]"))
       file_path repo_root path_stack σ = σ.
Proof.
  assert (Hlists : forall stat_type,
    kind stat_type ∉ checked_kinds -> is_array stat_type = true ->
    validate_value (JList items) stat_type file_path repo_root path_stack σ = σ).
  { intros st Hkind Harray. rewrite validate_value_array by exact Harray.
    symmetry. apply (for_enumerate_invariant eq); [done|congruence|].
    intros i item σ' _. destruct (_ && _); [reflexivity|].
    symmetry. by apply validate_value_unchecked. }
  split.
  - intros Hkind. split; [by apply validate_value_unchecked|by apply Hlists].
  - rewrite parse_type_nested_array_unknown. apply Hlists; [|reflexivity].
    simpl. unfold checked_kinds. rewrite !elem_of_cons, elem_of_nil.
    intros [H|[H|[H|[H|[H|[]]]]]]; vm_compute in H; discriminate.
Qed.

Lemma unchecked_kinds_accept_everything_witness :
  (kind (parse_type (py "dice")) ∉ checked_kinds)
  /\ validate_value (JDict [(py "sides", JInt 6)]) (parse_type (py "dice"))
       (py "f.json") (py "/repo") [] (mkStore ∅ []) = mkStore ∅ [].
Proof.
  assert (Hkind : kind (parse_type (py "dice")) ∉ checked_kinds).
  { unfold checked_kinds. rewrite !elem_of_cons, elem_of_nil.
    intros [H|[H|[H|[H|[H|[]]]]]]; vm_compute in H; discriminate. }
  split; [exact Hkind|].
  destruct (unchecked_kinds_accept_everything (parse_type (py "dice"))
              (JDict [(py "sides", JInt 6)]) [] [] (py "f.json") (py "/repo") []
              (mkStore ∅ [])) as [Hunchecked _].
  apply (proj1 (Hunchecked Hkind)). vm_compute. reflexivity.
Defined.

(** ** Malformed documents *)

(** X17. A document that is not an object, or whose [resource_id] is not a
    non-empty string, or whose [stats] is not an object, gets exactly one
    error and none of its statistics is looked at, whatever the value
    checker would do.  A document that is [null] is among the first: unlike
    a null value, a null document is an error. *)
Theorem malformed_documents_get_one_error
    (vv : json -> StatType -> pystr -> pystr -> list pystr -> store -> store)
    (file_path repo_root : pystr) (path_stack : list pystr) (σ : store) :
  let report path text :=
    mkStore (st_schema σ)
      (st_errors σ ++ [mkError file_path repo_root (format_path path) (Msg text)]) in
  (forall resource_obj,
     (forall obj, resource_obj <> JDict obj) ->
     validate_resource_instance_with vv resource_obj file_path repo_root path_stack σ
     = report path_stack
         (py "Expected object for resource, got " ++ type_name resource_obj))
  /\ (forall obj,
        (forall rid, dict_get (py "resource_id") obj = JStr rid -> rid = []) ->
        validate_resource_instance_with vv (JDict obj) file_path repo_root path_stack σ
        = report path_stack (py "Missing or invalid resource_id"))
  /\ (forall obj rid stats_schema,
        dict_get (py "resource_id") obj = JStr rid -> rid <> [] ->
        st_schema σ !! rid = Some stats_schema ->
        (forall stats, dict_get (py "stats") obj <> JDict stats) ->
        validate_resource_instance_with vv (JDict obj) file_path repo_root path_stack σ
        = report (path_stack ++ [resource_label obj])
            (py "Missing or invalid stats object, got "
             ++ type_name (dict_get (py "stats") obj)))
  /\ validate_resource_instance JNull file_path repo_root path_stack σ
     = report path_stack (py "Expected object for resource, got NoneType").
Proof.
  intros report. split; [|split; [|split]].
  - intros resource_obj Hshape.
    destruct resource_obj as [| | | | | |obj]; try reflexivity.
    by destruct (Hshape obj).
  - intros obj Hrid. rewrite validate_resource_instance_with_eq.
    destruct (dict_get (py "resource_id") obj) as [| | | |rid| |]; try reflexivity.
    by rewrite (Hrid rid eq_refl).
  - intros obj rid stats_schema Hrid Hne Hschema Hstats.
    rewrite validate_resource_instance_with_eq, Hrid.
    rewrite bool_decide_eq_false_2 by exact Hne. rewrite Hschema.
    destruct (dict_get (py "stats") obj) as [| | | | | |stats]; try reflexivity.
    by destruct (Hstats stats).
  - reflexivity.
Qed.

Lemma malformed_documents_get_one_error_witness :
  (forall rid, dict_get (py "resource_id") [(py "resource_id", JInt 3)] = JStr rid
               -> rid = [])
  /\ st_errors (validate_resource_instance (JDict [(py "resource_id", JInt 3)])
                  (py "f.json") (py "/repo") [] (mkStore orc_registry []))
     = [mkError (py "f.json") (py "/repo") (py "<root>")
          (Msg (py "Missing or invalid resource_id"))].
Proof.
  assert (Hrid : forall rid,
            dict_get (py "resource_id") [(py "resource_id", JInt 3)] = JStr rid
            -> rid = []) by (intros rid H; vm_compute in H; discriminate).
  split; [exact Hrid|].
  destruct (malformed_documents_get_one_error validate_value (py "f.json") (py "/repo")
              [] (mkStore orc_registry [])) as (_ & Hinvalid & _).
  unfold validate_resource_instance.
  rewrite (Hinvalid _ Hrid). vm_compute. reflexivity.
Defined.

(** ** Photos *)

(** X18. A photo is accepted when it is an object without the key [url], or with
    a [url] that is a string.  A [url] of any other type, [null] included,
    gets exactly one error, located at the segment [url] below the path of
    the value, and a value that is neither null nor an object gets one
    error at the path of the value. *)
Theorem photo_url_must_be_a_string (resource_type : option pystr)
    (photo : list (pystr * json)) (file_path repo_root : pystr)
    (path_stack : list pystr) (σ : store) :
  let photo_type := mkStatType (py "photo") false resource_type in
  let report path text :=
    mkStore (st_schema σ)
      (st_errors σ ++ [mkError file_path repo_root (format_path path) (Msg text)]) in
  (dict_contains (py "url") photo = false ->
   validate_value (JDict photo) photo_type file_path repo_root path_stack σ = σ)
  /\ (isinstance_str (dict_get (py "url") photo) = true ->
      validate_value (JDict photo) photo_type file_path repo_root path_stack σ = σ)
  /\ (dict_contains (py "url") photo = true ->
      isinstance_str (dict_get (py "url") photo) = false ->
      validate_value (JDict photo) photo_type file_path repo_root path_stack σ
      = report (path_stack ++ [py "url"])
          (py "Expected url string, got " ++ type_name (dict_get (py "url") photo)))
  /\ validate_value (JDict [(py "url", JNull)]) photo_type file_path repo_root
       path_stack σ
     = report (path_stack ++ [py "url"]) (py "Expected url string, got NoneType")
  /\ (forall value,
        value <> JNull -> (forall obj, value <> JDict obj) ->
        validate_value value photo_type file_path repo_root path_stack σ
        = report path_stack (py "Expected photo object, got " ++ type_name value)).
Proof.
  intros photo_type report.
  assert (Hphoto :
    validate_value (JDict photo) photo_type file_path repo_root path_stack σ
    = if dict_contains (py "url") photo
         && negb (isinstance_str (dict_get (py "url") photo))
      then add_error σ file_path repo_root (path_stack ++ [py "url"])
             (Msg (py "Expected url string, got "
                   ++ type_name (dict_get (py "url") photo)))
      else σ) by reflexivity.
  split; [|split; [|split; [|split]]].
  - intros Hmissing. by rewrite Hphoto, Hmissing.
  - intros Hstr. by rewrite Hphoto, Hstr, andb_false_r.
  - intros Hpresent Hother. by rewrite Hphoto, Hpresent, Hother.
  - reflexivity.
  - intros value Hnull Hshape.
    destruct value as [| | | | | |obj]; try reflexivity; [done|].
    by destruct (Hshape obj).
Qed.

Lemma photo_url_must_be_a_string_witness :
  (dict_contains (py "url") [(py "alt", JStr (py "map")); (py "url", JInt 4)] = true
   /\ isinstance_str (dict_get (py "url")
                        [(py "alt", JStr (py "map")); (py "url", JInt 4)]) = false)
  /\ st_errors (validate_value (JDict [(py "alt", JStr (py "map")); (py "url", JInt 4)])
                  (parse_type (py "photo")) (py "f.json") (py "/repo")
                  [py "stats.portrait.value"] (mkStore ∅ []))
     = [mkError (py "f.json") (py "/repo") (py "stats.portrait.value -> url")
          (Msg (py "Expected url string, got int"))].
Proof.
  split; [split; vm_compute; reflexivity|].
  destruct (photo_url_must_be_a_string None
              [(py "alt", JStr (py "map")); (py "url", JInt 4)]
              (py "f.json") (py "/repo") [py "stats.portrait.value"] (mkStore ∅ []))
    as (_ & _ & Hother & _).
  change (parse_type (py "photo")) with (mkStatType (py "photo") false None).
  rewrite Hother by (vm_compute; reflexivity). vm_compute. reflexivity.
Defined.

(** ** What the validator accepts *)

Lemma add_error_changes σ file_path repo_root path_stack msg :
  add_error σ file_path repo_root path_stack msg <> σ.
Proof.
  intros Heq. apply (f_equal (fun σ => length (st_errors σ))) in Heq.
  unfold add_error in Heq. simpl in Heq. rewrite length_app in Heq. simpl in Heq. lia.
Qed.

Lemma extends_antisym σ σ' : extends σ σ' -> extends σ' σ -> σ' = σ.
Proof.
  intros [Hschema [new Hnew]] [_ [new' Hnew']].
  assert (new = []) as ->.
  { apply (f_equal (@length error)) in Hnew, Hnew'.
    rewrite length_app in Hnew, Hnew'. destruct new; [reflexivity|simpl in *; lia]. }
  rewrite app_nil_r in Hnew. destruct σ, σ'; simpl in *. congruence.
Qed.

Lemma extends_squeeze σ σ1 σ2 : extends σ σ1 -> extends σ1 σ2 -> σ2 = σ -> σ1 = σ.
Proof. intros H01 H12 ->. by apply extends_antisym. Qed.

Lemma fold_left_unchanged {B} (f : store -> B -> store) (Q : B -> Prop)
    (l : list B) (σ : store) :
  (forall σ' b, In b l -> extends σ' (f σ' b)) ->
  (forall b, In b l -> f σ b = σ <-> Q b) ->
  fold_left f l σ = σ <-> Forall Q l.
Proof.
  induction l as [|b l IH]; intros Hext HQ; simpl; [by split|].
  assert (Htail : forall σ', extends σ' (fold_left f l σ')).
  { intros σ'. apply (fold_left_invariant extends);
      [apply extends_refl|apply extends_trans|].
    intros σ'' b' Hin. apply Hext. by right. }
  split.
  - intros Hfold.
    assert (Hb : f σ b = σ).
    { apply (extends_squeeze σ (f σ b) (fold_left f l (f σ b)));
        [apply Hext; by left|apply Htail|exact Hfold]. }
    rewrite Hb in Hfold. constructor; [apply HQ; [by left|exact Hb]|].
    apply IH; [intros; apply Hext; by right|intros; apply HQ; by right|exact Hfold].
  - intros Hall. inversion Hall as [|b' l' Hb Hl]; subst.
    apply HQ in Hb; [|by left]. rewrite Hb.
    apply IH; [intros; apply Hext; by right|intros; apply HQ; by right|exact Hl].
Qed.

Lemma for_enumerate_unchanged {A} (body : nat -> A -> store -> store)
    (Q : A -> Prop) (items : list A) (idx : nat) (σ : store) :
  (forall σ' i item, In item items -> extends σ' (body i item σ')) ->
  (forall i item, In item items -> body i item σ = σ <-> Q item) ->
  for_enumerate body items idx σ = σ <-> Forall Q items.
Proof.
  revert idx. induction items as [|item items IH]; intros idx Hext HQ; [by split|].
  change (for_enumerate body (item :: items) idx σ)
    with (for_enumerate body items (S idx) (body idx item σ)).
  assert (Htail : forall i σ', extends σ' (for_enumerate body items i σ')).
  { intros i σ'. apply (for_enumerate_invariant extends);
      [apply extends_refl|apply extends_trans|].
    intros j x σ'' Hin. apply Hext. by right. }
  split.
  - intros Hloop.
    assert (Hitem : body idx item σ = σ).
    { apply (extends_squeeze σ _ (for_enumerate body items (S idx) (body idx item σ)));
        [apply Hext; by left|apply Htail|exact Hloop]. }
    rewrite Hitem in Hloop. constructor; [apply (HQ idx); [by left|exact Hitem]|].
    apply (IH (S idx));
      [intros; apply Hext; by right|intros; apply HQ; by right|exact Hloop].
  - intros Hall. inversion Hall as [|x l Hitem Hitems]; subst.
    apply (HQ idx) in Hitem; [|by left]. rewrite Hitem.
    apply (IH (S idx));
      [intros; apply Hext; by right|intros; apply HQ; by right|exact Hitems].
Qed.

Lemma str_eqb_false (a b : pystr) : str_eqb a b = false -> a <> b.
Proof. intros Hfalse ->. by rewrite str_eqb_refl in Hfalse. Qed.

Lemma checked_kinds_spec (k : pystr) :
  k ∈ checked_kinds
  <-> k = py "string" \/ k = py "bool" \/ k = py "integer" \/ k = py "photo"
      \/ k = py "resource".
Proof.
  unfold checked_kinds. rewrite !elem_of_cons, elem_of_nil. tauto.
Qed.

Ltac kind_clash :=
  simpl in *;
  match goal with
  | H : false = true |- _ => discriminate H
  | H : true = false |- _ => discriminate H
  | H : py _ = py _ |- _ => vm_compute in H; discriminate H
  | H : py _ ∉ checked_kinds |- _ =>
      exfalso; apply H; apply checked_kinds_spec; auto 10
  end.

Lemma validate_value_clean_scalar (value : json) (stat_type : StatType)
    (file_path repo_root : pystr) (path_stack : list pystr) (σ : store) :
  is_array stat_type = false ->
  kind stat_type <> py "resource" ->
  validate_value value stat_type file_path repo_root path_stack σ = σ
  <-> conforms (st_schema σ) value stat_type.
Proof.
  intros Hscalar Hresource.
  destruct (decide (kind stat_type ∈ checked_kinds)) as [Hchecked|Hunchecked].
  2: { rewrite validate_value_unchecked by assumption.
       split; [intros _; by apply conforms_unchecked|reflexivity]. }
  destruct stat_type as [k arr rt]; simpl in *; subst arr.
  apply checked_kinds_spec in Hchecked as [-> | [-> | [-> | [-> | ->]]]]; [| | | |done].
  all: destruct value as [|b|n|x|s|items|obj].
  all: try (split; [intros _; solve [constructor; reflexivity]|reflexivity]).
  all: try (split; [intros Hclean; by destruct (add_error_changes _ _ _ _ _ Hclean)
                   |intros Hconforms; inversion Hconforms; subst; kind_clash]).
  destruct (dict_contains (py "url") obj) eqn:Hcontains;
    [destruct (isinstance_str (dict_get (py "url") obj)) eqn:Hstr|].
  - split; [intros _; by apply conforms_photo|].
    intros _. simpl. by rewrite Hcontains, Hstr.
  - split.
    + intros Hclean. simpl in Hclean. rewrite Hcontains, Hstr in Hclean.
      by destruct (add_error_changes _ _ _ _ _ Hclean).
    + intros Hconforms. inversion Hconforms as [| | | | | | |? ? ? ? Hurl|]; subst;
        try kind_clash.
      specialize (Hurl Hcontains). congruence.
  - split; [intros _; apply conforms_photo; [reflexivity..|congruence]|].
    intros _. simpl. by rewrite Hcontains.
Qed.

Section Clean.

Variables file_path repo_root : pystr.

(** What the entry [(stat_name, stat_value)] of [stats] has to be. *)
Lemma validate_stat_clean stats_schema current_stack σ stat_name stat_value :
  (forall value, (json_size value < json_size stat_value)%nat ->
     forall stat_type path_stack σ,
       validate_value value stat_type file_path repo_root path_stack σ = σ
       <-> conforms (st_schema σ) value stat_type) ->
  validate_stat validate_value stats_schema file_path repo_root current_stack σ
    stat_name stat_value = σ
  <-> (stat_name ∈ META_STATS
       \/ exists stat_type wrapper,
            stats_schema !! stat_name = Some stat_type
            /\ stat_value = JDict wrapper
            /\ dict_contains (py "value") wrapper = true
            /\ conforms (st_schema σ) (dict_get (py "value") wrapper) stat_type).
Proof.
  intros IH. rewrite validate_stat_eq.
  case_bool_decide as Hmeta; [split; [by left|reflexivity]|].
  destruct (stats_schema !! stat_name) as [stat_type|] eqn:Hschema.
  2: { split; [intros Hclean; by destruct (add_error_changes _ _ _ _ _ Hclean)|].
       intros [?|(? & ? & [=] & _)]; done. }
  destruct stat_value as [| | | | | |wrapper];
    try (split; [intros Hclean; by destruct (add_error_changes _ _ _ _ _ Hclean)
                |intros [?|(? & ? & _ & [=] & _)]; done]).
  destruct (dict_contains (py "value") wrapper) eqn:Hcontains.
  2: { split; [intros Hclean; by destruct (add_error_changes _ _ _ _ _ Hclean)|].
       intros [?|(? & ? & _ & [= <-] & ? & _)]; [done|congruence]. }
  destruct (dict_get_elem _ _ Hcontains) as [k Hin].
  rewrite IH by (by apply (json_size_dict_elem k)).
  split.
  - intros Hconforms. right. by exists stat_type, wrapper.
  - intros [?|(? & ? & [= <-] & [= <-] & _ & Hconforms)]; done.
Qed.

(** What the object [obj] has to be as a document. *)
Lemma validate_resource_instance_clean obj path_stack σ :
  (forall value, (json_size value < json_size (JDict obj))%nat ->
     forall stat_type path_stack σ,
       validate_value value stat_type file_path repo_root path_stack σ = σ
       <-> conforms (st_schema σ) value stat_type) ->
  validate_resource_instance (JDict obj) file_path repo_root path_stack σ = σ
  <-> exists rid stats_schema stats,
        dict_get (py "resource_id") obj = JStr rid /\ rid <> []
        /\ st_schema σ !! rid = Some stats_schema
        /\ dict_get (py "stats") obj = JDict stats
        /\ Forall (fun entry =>
                     fst entry ∈ META_STATS
                     \/ exists stat_type wrapper,
                          stats_schema !! fst entry = Some stat_type
                          /\ snd entry = JDict wrapper
                          /\ dict_contains (py "value") wrapper = true
                          /\ conforms (st_schema σ)
                               (dict_get (py "value") wrapper) stat_type)
                  stats.
Proof.
  intros IH. unfold validate_resource_instance.
  rewrite validate_resource_instance_with_eq.
  destruct (dict_get (py "resource_id") obj) as [| | | |rid| |];
    try (split; [intros Hclean; by destruct (add_error_changes _ _ _ _ _ Hclean)
                |intros (? & ? & ? & [=] & _)]).
  case_bool_decide as Hrid.
  { split; [intros Hclean; by destruct (add_error_changes _ _ _ _ _ Hclean)|].
    intros (? & ? & ? & [= <-] & ? & _). done. }
  destruct (st_schema σ !! rid) as [stats_schema|] eqn:Hschema.
  2: { split; [intros Hclean; by destruct (add_error_changes _ _ _ _ _ Hclean)|].
       intros (? & ? & ? & [= <-] & _ & ? & _). congruence. }
  destruct (dict_get (py "stats") obj) as [| | | | | |stats] eqn:Hstats;
    try (split; [intros Hclean; by destruct (add_error_changes _ _ _ _ _ Hclean)
                |intros (? & ? & ? & _ & _ & _ & [=] & _)]).
  assert (Hin : exists k, In (k, JDict stats) obj).
  { destruct (dict_contains (py "stats") obj) eqn:Hcontains.
    - rewrite <- Hstats. by apply dict_get_elem.
    - by rewrite (dict_get_missing _ _ Hcontains) in Hstats. }
  destruct Hin as [k Hin].
  rewrite (fold_left_unchanged _
             (fun entry =>
                fst entry ∈ META_STATS
                \/ exists stat_type wrapper,
                     stats_schema !! fst entry = Some stat_type
                     /\ snd entry = JDict wrapper
                     /\ dict_contains (py "value") wrapper = true
                     /\ conforms (st_schema σ) (dict_get (py "value") wrapper) stat_type)).
  - split.
    + intros Hall. by exists rid, stats_schema, stats.
    + intros (? & ? & ? & [= <-] & _ & Hschema' & [= <-] & Hall).
      rewrite Hschema in Hschema'. by injection Hschema' as <-.
  - intros σ' [stat_name stat_value] _. apply validate_stat_extends.
    intros value _ st path σ''. apply validate_value_extends.
  - intros [stat_name stat_value] Hentry. simpl. apply validate_stat_clean.
    intros value Hlt. apply IH.
    pose proof (json_size_dict_elem _ _ _ Hentry).
    pose proof (json_size_dict_elem _ _ _ Hin). lia.
Qed.

End Clean.

Lemma validate_value_clean (file_path repo_root : pystr) (value : json) :
  forall stat_type path_stack σ,
    validate_value value stat_type file_path repo_root path_stack σ = σ
    <-> conforms (st_schema σ) value stat_type.
Proof.
  induction value as [value IH] using json_size_ind.
  intros stat_type path_stack σ.
  destruct (is_array stat_type) eqn:Harray.
  - destruct value as [| | | | |items|obj];
      try (split; [intros _; constructor|reflexivity]);
      try (split; [simpl; rewrite Harray; intros Hclean;
                   by destruct (add_error_changes _ _ _ _ _ Hclean)
                  |intros Hconforms; inversion Hconforms; congruence]).
    rewrite validate_value_array by exact Harray.
    rewrite (for_enumerate_unchanged _
               (fun item => conforms (st_schema σ) item (element_type stat_type))).
    + split; [by apply conforms_array|].
      intros Hconforms. inversion Hconforms; [assumption|congruence].
    + intros σ' i item _. destruct (_ && _);
        [apply extends_refl|apply validate_value_extends].
    + intros i item Hin. destruct (is_none item && _) eqn:Hfast.
      * apply andb_true_iff in Hfast as [Hnone _].
        destruct item; try discriminate. split; [constructor|reflexivity].
      * apply IH. by apply json_size_list_elem.
  - destruct (decide (kind stat_type = py "resource")) as [Hkind|Hkind];
      [|by apply validate_value_clean_scalar].
    destruct stat_type as [k arr rt]; simpl in *; subst.
    destruct value as [|b|n|x|s|items|obj];
      try (split; [intros _; constructor|reflexivity]);
      try (split; [intros Hclean; by destruct (add_error_changes _ _ _ _ _ Hclean)
                  |intros Hconforms; inversion Hconforms; subst; kind_clash]).
    rewrite validate_value_resource.
    pose proof (validate_resource_instance_clean file_path repo_root obj path_stack)
      as Hdocument.
    destruct rt as [expected|].
    2: { rewrite Hdocument by (intros; by apply IH). split.
         - intros (rid & stats_schema & stats & ? & ? & ? & ? & ?).
           by eapply conforms_resource.
         - intros Hconforms. inversion Hconforms; subst; try kind_clash.
           by eexists _, _, _. }
    destruct (negb (bool_decide (expected = []))
              && negb (eq_str (dict_get (py "resource_id") obj) expected)) eqn:Hmismatch.
    + apply andb_true_iff in Hmismatch as [Hnamed Hdiffers].
      apply negb_true_iff in Hnamed, Hdiffers.
      apply bool_decide_eq_false_1 in Hnamed.
      split.
      * intros Hclean.
        destruct (add_error_changes σ file_path repo_root path_stack
                    (MsgExpectedResourceId expected (dict_get (py "resource_id") obj))).
        eapply extends_squeeze;
          [apply extends_add_error|apply validate_resource_instance_extends
          |exact Hclean].
      * intros Hconforms. inversion Hconforms as [| | | | | | | |? rid ? ? ? ? ? Hexpected Hrid];
          subst; try kind_clash.
        rewrite Hrid in Hdiffers. simpl in Hdiffers.
        rewrite (Hexpected expected eq_refl Hnamed), str_eqb_refl in Hdiffers.
        discriminate.
    + rewrite Hdocument by (intros; by apply IH). split.
      * intros (rid & stats_schema & stats & Hrid & ? & ? & ? & ?).
        eapply conforms_resource; try eassumption; try reflexivity.
        intros expected' [= <-] Hnamed.
        apply andb_false_iff in Hmismatch as [Hempty|Hsame].
        -- apply negb_false_iff, bool_decide_eq_true_1 in Hempty. done.
        -- apply negb_false_iff in Hsame. rewrite Hrid in Hsame.
           by apply str_eqb_eq in Hsame.
      * intros Hconforms. inversion Hconforms; subst; try kind_clash.
        by eexists _, _, _.
Qed.

Lemma extends_clean σ σ' : extends σ σ' -> st_errors σ' = st_errors σ <-> σ' = σ.
Proof.
  intros [Hschema _]. split; [|by intros ->].
  intros Herrors. destruct σ, σ'; simpl in *. congruence.
Qed.

(** X19. The validator reports nothing exactly for the values that conform: a
    value checked against a descriptor leaves the error list as it was if
    and only if it is null, or a list of conforming elements for an array,
    or of the type the kind asks for, or a nested document of the required
    resource kind; and a document leaves it as it was if and only if it
    is an object with a known non-empty [resource_id] and a [stats] object
    whose entries are reserved names or wrappers holding a conforming
    [value] for a declared statistic. *)
Theorem no_error_iff_conforms (value : json) (stat_type : StatType)
    (file_path repo_root : pystr) (path_stack : list pystr) (σ : store) :
  (st_errors (validate_value value stat_type file_path repo_root path_stack σ)
   = st_errors σ
   <-> conforms (st_schema σ) value stat_type)
  /\ (st_errors (validate_resource_instance value file_path repo_root path_stack σ)
      = st_errors σ
      <-> document_conforms (st_schema σ) value).
Proof.
  split.
  - rewrite (extends_clean _ _ (validate_value_extends _ _ _ _ _ _)).
    apply validate_value_clean.
  - rewrite (extends_clean _ _ (validate_resource_instance_extends _ _ _ _ _)).
    unfold document_conforms.
    destruct value as [| | | | | |obj];
      try (split; [intros Hclean; by destruct (add_error_changes _ _ _ _ _ Hclean)
                  |intros (? & [=] & _)]).
    rewrite <- (validate_value_resource obj None), validate_value_clean.
    split; [intros Hconforms; by exists obj|by intros (? & _ & Hconforms)].
Qed.

Lemma no_error_iff_conforms_witness :
  conforms hero_registry sword_document (parse_type (py "resource<sword>"))
  /\ ~ conforms hero_registry axe_document (parse_type (py "resource<sword>")).
Proof.
  destruct (no_error_iff_conforms sword_document (parse_type (py "resource<sword>"))
              (py "f.json") (py "/repo") [] (mkStore hero_registry [])) as [Hsword _].
  destruct (no_error_iff_conforms axe_document (parse_type (py "resource<sword>"))
              (py "f.json") (py "/repo") [] (mkStore hero_registry [])) as [Haxe _].
  split.
  - apply Hsword. vm_compute. reflexivity.
  - intros Hconforms. apply Haxe in Hconforms. vm_compute in Hconforms. discriminate.
Defined.

(** ** The system of a file *)

Lemma infer_system_scan (parts before rest : list pystr) (system : pystr) :
  parts = before ++ rest ->
  (fix scan (rest : list pystr) (idx : nat) : option pystr :=
     match rest with
     | [] => None
     | part :: rest =>
         if str_eqb part (py "systems") && (idx + 1 <? length parts)%nat
         then parts !! (idx + 1)%nat
         else scan rest (S idx)
     end) rest (length before) = Some system
  <-> exists skipped after,
        rest = skipped ++ py "systems" :: system :: after
        /\ ~ In (py "systems") skipped.
Proof.
  revert before. induction rest as [|part rest IH]; intros before Hparts.
  - split; [discriminate|]. intros (skipped & after & Heq & _).
    by destruct skipped.
  - destruct (str_eqb part (py "systems")) eqn:Hpart; simpl.
    + apply str_eqb_eq in Hpart as ->.
      destruct rest as [|next rest].
      * replace (length before + 1 <? length parts)%nat with false.
        2: { symmetry. apply Nat.ltb_ge. subst parts. rewrite length_app. simpl. lia. }
        split; [discriminate|]. intros (skipped & after & Heq & _).
        destruct skipped as [|? [|? ?]]; discriminate.
      * replace (length before + 1 <? length parts)%nat with true.
        2: { symmetry. apply Nat.ltb_lt. subst parts. rewrite length_app. simpl. lia. }
        replace (parts !! (length before + 1)%nat) with (Some next).
        2: { symmetry. subst parts.
             rewrite (cons_middle (py "systems") before (next :: rest)), app_assoc.
             apply list_lookup_middle. rewrite length_app. simpl. lia. }
        split.
        -- intros [= ->]. exists [], rest. split; [reflexivity|intros []].
        -- intros (skipped & after & Heq & Hskipped).
           destruct skipped as [|first skipped].
           ++ by injection Heq as -> _.
           ++ injection Heq as <- _. destruct Hskipped. by left.
    + apply str_eqb_false in Hpart.
      specialize (IH (before ++ [part])).
      rewrite length_app in IH. simpl in IH.
      replace (length before + 1)%nat with (S (length before)) in IH by lia.
      rewrite IH by (by rewrite <- app_assoc).
      split.
      * intros (skipped & after & -> & Hskipped).
        exists (part :: skipped), after. split; [reflexivity|].
        intros [Heq|Hin]; [by destruct Hpart|by destruct Hskipped].
      * intros (skipped & after & Heq & Hskipped).
        destruct skipped as [|first skipped].
        -- injection Heq as -> _. done.
        -- injection Heq as <- ->. exists skipped, after.
           split; [reflexivity|]. intros Hin. apply Hskipped. by right.
Qed.

(** X20. The system inferred for a file is the path component that follows the
    first component [systems]: a path outside the repository, a path
    without [systems], and a path that ends in its only [systems] give
    none. *)
Theorem infer_system_is_after_first_systems (parts : list pystr) (system : pystr) :
  infer_system_from_path None = None
  /\ (infer_system_from_path (Some parts) = Some system
      <-> exists before after,
            parts = before ++ py "systems" :: system :: after
            /\ ~ In (py "systems") before).
Proof.
  split; [reflexivity|].
  apply (infer_system_scan parts [] parts system). reflexivity.
Qed.

Lemma infer_system_is_after_first_systems_witness :
  infer_system_from_path
    (Some [py "systems"; py "5e"; py "resource_instances"; py "systems"; py "x.json"])
  = Some (py "5e")
  /\ infer_system_from_path (Some [py "docs"; py "systems"]) = None.
Proof.
  split.
  - apply (infer_system_is_after_first_systems
             [py "systems"; py "5e"; py "resource_instances"; py "systems"; py "x.json"]
             (py "5e")).
    exists [], [py "resource_instances"; py "systems"; py "x.json"].
    split; [reflexivity|]. intros [].
  - vm_compute. reflexivity.
Defined.

(** ** The instance files *)

Lemma iter_instance_files_inner (root : pystr) (filenames : list pystr)
    (files : list (pystr * pystr)) :
  fold_left
    (fun files filename =>
       if is_instance_filename filename then files ++ [(root, filename)] else files)
    filenames files
  = files ++ map (pair root) (List.filter is_instance_filename filenames).
Proof.
  revert files. induction filenames as [|filename filenames IH]; intros files; simpl.
  - by rewrite app_nil_r.
  - rewrite IH. destruct (is_instance_filename filename); [|reflexivity].
    simpl. by rewrite <- app_assoc.
Qed.

Lemma iter_instance_files_outer (walk : list (pystr * list pystr * list pystr))
    (files : list (pystr * pystr)) :
  fold_left
    (fun files '(root, _dirs, filenames) =>
       fold_left
         (fun files filename =>
            if is_instance_filename filename then files ++ [(root, filename)]
            else files)
         filenames files)
    walk files
  = files
    ++ flat_map (fun '(root, _dirs, filenames) =>
                   map (pair root) (List.filter is_instance_filename filenames))
         walk.
Proof.
  revert files. induction walk as [|[[root dirs] filenames] walk IH]; intros files; simpl.
  - by rewrite app_nil_r.
  - by rewrite IH, iter_instance_files_inner, <- app_assoc.
Qed.

(** X21. The instance files are the files of the walk, directory by directory
    and in the order of each directory, whose name does not start with a
    dot and ends in [.json] or [.rpg]: a file is listed exactly when the
    walk has it under that directory with such a name. *)
Theorem iter_instance_files_lists_visible_instances
    (walk : list (pystr * list pystr * list pystr)) (root filename : pystr) :
  iter_instance_files walk
  = flat_map (fun '(root, _dirs, filenames) =>
                map (pair root) (List.filter is_instance_filename filenames))
      walk
  /\ (In (root, filename) (iter_instance_files walk)
      <-> exists dirs filenames,
            In (root, dirs, filenames) walk /\ In filename filenames
            /\ startswith filename (py ".") = false
            /\ (endswith filename (py ".json") = true
                \/ endswith filename (py ".rpg") = true)).
Proof.
  assert (Hlist : iter_instance_files walk
    = flat_map (fun '(root, _dirs, filenames) =>
                  map (pair root) (List.filter is_instance_filename filenames))
        walk) by apply (iter_instance_files_outer walk []).
  split; [exact Hlist|].
  assert (Hname : is_instance_filename filename = true
    <-> startswith filename (py ".") = false
        /\ (endswith filename (py ".json") = true
            \/ endswith filename (py ".rpg") = true)).
  { unfold is_instance_filename.
    destruct (startswith filename (py ".")); [split; [discriminate|intros [? _]; done]|].
    destruct (endswith filename (py ".json")), (endswith filename (py ".rpg")); simpl;
      split; try discriminate; try (intros [_ [?|?]]; done); auto. }
  rewrite Hlist, in_flat_map. split.
  - intros ([[root' dirs] filenames] & Hwalk & Hin).
    apply in_map_iff in Hin as (name & [= <- <-] & Hfilter).
    apply filter_In in Hfilter as [Hin Hok].
    exists dirs, filenames. split; [exact Hwalk|]. split; [exact Hin|].
    by apply Hname.
  - intros (dirs & filenames & Hwalk & Hin & Hvisible & Hsuffix).
    exists (root, dirs, filenames). split; [exact Hwalk|].
    apply in_map_iff. exists filename. split; [reflexivity|].
    apply filter_In. split; [exact Hin|]. by apply Hname.
Qed.

Lemma iter_instance_files_lists_visible_instances_witness :
  iter_instance_files
    [(py "inst", [py "npc"], [py ".hidden.json"; py "a.json"; py "notes.txt"]);
     (py "inst/npc", [], [py "b.rpg"; py "c.JSON"])]
  = [(py "inst", py "a.json"); (py "inst/npc", py "b.rpg")].
Proof.
  destruct (iter_instance_files_lists_visible_instances
              [(py "inst", [py "npc"], [py ".hidden.json"; py "a.json"; py "notes.txt"]);
               (py "inst/npc", [], [py "b.rpg"; py "c.JSON"])] [] []) as [Hlist _].
  rewrite Hlist. vm_compute. reflexivity.
Defined.

(** ** Instances of the statements above *)

Lemma parse_type_kinds_witness :
  resource_type (parse_type (py "resource<spell>[]")) <> None
  /\ kind (parse_type (py "resource<spell>[]")) = py "resource".
Proof.
  assert (Hnamed : resource_type (parse_type (py "resource<spell>[]")) <> None)
    by (vm_compute; discriminate).
  split; [exact Hnamed|].
  exact (proj2 (parse_type_kinds (py "resource<spell>[]")) Hnamed).
Defined.

Lemma load_schema_lookup_witness :
  (forall lines,
     ~ In (py "axe", lines)
         [(py "orc", [py "base integer hp(10)"]); (py "orc", [py "base string hp()"])])
  /\ load_schema [(py "orc", [py "base integer hp(10)"]);
                  (py "orc", [py "base string hp()"])] !! py "axe" = None
  /\ load_schema [(py "orc", [py "base integer hp(10)"]);
                  (py "orc", [py "base string hp()"])] !! py "orc"
     = Some {[ py "hp" := parse_type (py "string") ]}.
Proof.
  assert (Habsent : forall lines,
     ~ In (py "axe", lines)
         [(py "orc", [py "base integer hp(10)"]); (py "orc", [py "base string hp()"])]).
  { intros lines [H|[H|[]]]; vm_compute in H; discriminate. }
  split; [exact Habsent|]. split.
  - exact (proj2 (proj2 (load_schema_lookup _ (py "axe"))) Habsent).
  - rewrite (proj1 (load_schema_lookup _ (py "orc"))). vm_compute. reflexivity.
Defined.


(** ** The file system during a validation *)

Lemma framed_fold_left {B} (f : store -> B -> store) (l : list B) :
  (forall b, In b l -> framed (fun σ => f σ b)) ->
  framed (fun σ => fold_left f l σ).
Proof.
  intros Hsteps σ. rewrite (fold_left_framed f l σ Hsteps).
  rewrite (fold_left_framed f l (fresh σ) Hsteps). reflexivity.
Qed.

Section Tracking.

Variable resolve : pystr -> pystr.
Variable relative_to : pystr -> pystr -> option pystr.
Variable str_of_value : json -> pystr.

Local Abbreviation tracks' := (tracks resolve relative_to str_of_value).
Local Abbreviation after := (world_after resolve relative_to str_of_value).
Local Abbreviation add_io := (add_error_io resolve relative_to str_of_value).
Local Abbreviation stat_io := (validate_stat_io resolve relative_to str_of_value).
Local Abbreviation instance_with_io :=
  (validate_resource_instance_with_io resolve relative_to str_of_value).
Local Abbreviation value_io := (validate_value_io resolve relative_to str_of_value).

Lemma world_after_nil ω : after ω [] = ω.
Proof. destruct ω. unfold world_after; simpl. by rewrite !app_nil_r. Qed.

Lemma world_after_app ω new new' :
  after (after ω new) new' = after ω (new ++ new').
Proof.
  unfold world_after; simpl.
  by rewrite map_app, flat_map_app, <- !app_assoc.
Qed.

Lemma tracks_skip : tracks' (fun ω => ω) (fun σ => σ).
Proof. intros ω. simpl. by rewrite world_after_nil. Qed.

Lemma tracks_add_error file_path repo_root path_stack msg :
  tracks' (fun ω => add_io ω file_path repo_root path_stack msg)
         (fun σ => add_error σ file_path repo_root path_stack msg).
Proof. intros ω. unfold world_after; simpl. reflexivity. Qed.

Lemma tracks_then (f_io g_io : world -> world) (f g : store -> store) :
  tracks' f_io f -> tracks' g_io g -> framed f -> framed g ->
  tracks' (fun ω => g_io (f_io ω)) (fun σ => g (f σ)).
Proof.
  intros Hf Hg Hframed_f Hframed_g ω.
  rewrite (Hg (f_io ω)), (Hf ω). simpl. rewrite world_after_app.
  f_equal.
  rewrite (Hframed_g (f (mkStore (w_schema ω) []))).
  rewrite (framed_fresh f _ Hframed_f). reflexivity.
Qed.

Lemma tracks_fold_left {B} (f_io : world -> B -> world) (f : store -> B -> store)
    (l : list B) :
  (forall b, In b l -> tracks' (fun ω => f_io ω b) (fun σ => f σ b)) ->
  (forall b, In b l -> framed (fun σ => f σ b)) ->
  tracks' (fun ω => fold_left f_io l ω) (fun σ => fold_left f l σ).
Proof.
  induction l as [|b l IH]; intros Htracks Hframed; [apply tracks_skip|].
  simpl.
  apply (tracks_then (fun ω => f_io ω b) (fun ω => fold_left f_io l ω)
                     (fun σ => f σ b) (fun σ => fold_left f l σ)).
  - apply Htracks. by left.
  - apply IH; intros b' Hin; [apply Htracks|apply Hframed]; by right.
  - apply Hframed. by left.
  - apply framed_fold_left. intros b' Hin. apply Hframed. by right.
Qed.

Lemma tracks_for_enumerate {A} (body_io : nat -> A -> world -> world)
    (body : nat -> A -> store -> store) (items : list A) (idx : nat) :
  (forall i item, In item items -> tracks' (body_io i item) (body i item)) ->
  (forall i item, In item items -> framed (body i item)) ->
  tracks' (for_enumerate body_io items idx) (for_enumerate body items idx).
Proof.
  revert idx. induction items as [|item items IH]; intros idx Htracks Hframed;
    [apply tracks_skip|].
  change (for_enumerate body_io (item :: items) idx)
    with (fun ω => for_enumerate body_io items (S idx) (body_io idx item ω)).
  change (for_enumerate body (item :: items) idx)
    with (fun σ => for_enumerate body items (S idx) (body idx item σ)).
  apply (tracks_then (body_io idx item) (for_enumerate body_io items (S idx))
                     (body idx item) (for_enumerate body items (S idx))).
  - apply Htracks. by left.
  - apply IH; intros i x Hin; [apply Htracks|apply Hframed]; by right.
  - apply Hframed. by left.
  - apply for_enumerate_framed. intros i x Hin. apply Hframed. by right.
Qed.

Lemma validate_stat_io_tracks
    (vv_io : json -> StatType -> pystr -> pystr -> list pystr -> world -> world)
    stats_schema file_path repo_root current_stack
    stat_name stat_value :
  (forall value, (json_size value < json_size stat_value)%nat ->
     forall stat_type path_stack,
       tracks' (vv_io value stat_type file_path repo_root path_stack)
              (validate_value value stat_type file_path repo_root path_stack)) ->
  tracks' (fun ω => stat_io vv_io stats_schema file_path repo_root
                     current_stack ω stat_name stat_value)
         (fun σ => validate_stat validate_value stats_schema file_path repo_root
                     current_stack σ stat_name stat_value).
Proof.
  intros Hvv ω. unfold validate_stat_io. rewrite validate_stat_eq.
  destruct (bool_decide _); [apply tracks_skip|].
  destruct (stats_schema !! stat_name); [|apply tracks_add_error].
  destruct stat_value as [| | | | | |entry]; try apply tracks_add_error.
  rewrite dict_get_then_eq.
  destruct (dict_contains (py "value") entry) eqn:Hcontains; [|apply tracks_add_error].
  destruct (dict_get_elem _ _ Hcontains) as [k Hin].
  apply Hvv. by apply (json_size_dict_elem k).
Qed.

Lemma validate_resource_instance_with_io_tracks
    (vv_io : json -> StatType -> pystr -> pystr -> list pystr -> world -> world)
    resource_obj file_path repo_root
    path_stack :
  (forall value, (json_size value < json_size resource_obj)%nat ->
     forall stat_type path_stack,
       tracks' (vv_io value stat_type file_path repo_root path_stack)
              (validate_value value stat_type file_path repo_root path_stack)) ->
  tracks' (instance_with_io vv_io resource_obj file_path repo_root
            path_stack)
         (validate_resource_instance_with validate_value resource_obj file_path
            repo_root path_stack).
Proof.
  intros Hvv ω.
  destruct resource_obj as [| | | | |items|obj]; try apply tracks_add_error.
  unfold validate_resource_instance_with_io.
  rewrite validate_resource_instance_with_eq.
  destruct (dict_get (py "resource_id") obj) as [| | | |rid| |];
    try apply tracks_add_error.
  destruct (bool_decide (rid = [])); [apply tracks_add_error|].
  change (st_schema (mkStore (w_schema ω) [])) with (w_schema ω).
  destruct (w_schema ω !! rid) as [stats_schema|]; [|apply tracks_add_error].
  rewrite dict_get_then_eq.
  destruct (dict_contains (py "stats") obj) eqn:Hcontains.
  2: { rewrite (dict_get_missing _ _ Hcontains). apply tracks_add_error. }
  destruct (dict_get_elem _ _ Hcontains) as [k Hin].
  destruct (dict_get (py "stats") obj) as [| | | | | |stats];
    try apply tracks_add_error.
  apply (tracks_fold_left
           (fun ω '(stat_name, stat_value) =>
              stat_io vv_io stats_schema file_path repo_root
                (path_stack ++ [resource_label obj]) ω stat_name stat_value)
           (fun σ '(stat_name, stat_value) =>
              validate_stat validate_value stats_schema file_path repo_root
                (path_stack ++ [resource_label obj]) σ stat_name stat_value)).
  - intros [stat_name stat_value] Hentry. apply validate_stat_io_tracks.
    intros value Hlt. apply Hvv.
    pose proof (json_size_dict_elem _ _ _ Hentry).
    pose proof (json_size_dict_elem _ _ _ Hin). lia.
  - intros [stat_name stat_value] _. apply validate_stat_framed.
    intros value _ st path. apply validate_value_framed.
Qed.

Lemma validate_value_io_tracks value :
  forall stat_type file_path repo_root path_stack,
    tracks' (value_io value stat_type file_path repo_root path_stack)
            (validate_value value stat_type file_path repo_root path_stack).
Proof.
  induction value as [value IH] using json_size_ind.
  intros stat_type file_path repo_root path_stack.
  pose proof tracks_skip as Hskip.
  pose proof (tracks_add_error file_path repo_root) as Hreport.
  destruct value as [| | | | |items|obj]; simpl; try exact Hskip;
    destruct (is_array stat_type); try apply Hreport;
    repeat (match goal with |- context [if ?c then _ else _] => destruct c end;
            try exact Hskip; try apply Hreport).
  - apply tracks_for_enumerate.
    + intros i item Hin. destruct (_ && _); [exact Hskip|].
      apply IH. by apply json_size_list_elem.
    + intros i item Hin. destruct (_ && _); [apply framed_skip|].
      apply validate_value_framed.
  - apply (tracks_then
             (fun ω => match resource_type stat_type with
                       | Some expected =>
                           if negb (bool_decide (expected = []))
                              && negb (eq_str (dict_get (py "resource_id") obj) expected)
                           then add_io ω file_path repo_root path_stack
                                  (MsgExpectedResourceId expected
                                     (dict_get (py "resource_id") obj))
                           else ω
                       | None => ω
                       end)
             (instance_with_io value_io (JDict obj) file_path repo_root path_stack)
             (fun σ => match resource_type stat_type with
                       | Some expected =>
                           if negb (bool_decide (expected = []))
                              && negb (eq_str (dict_get (py "resource_id") obj) expected)
                           then add_error σ file_path repo_root path_stack
                                  (MsgExpectedResourceId expected
                                     (dict_get (py "resource_id") obj))
                           else σ
                       | None => σ
                       end)
             (validate_resource_instance_with validate_value (JDict obj)
                file_path repo_root path_stack)).
    + destruct (resource_type stat_type); [|exact Hskip].
      destruct (_ && _); [apply Hreport|exact Hskip].
    + apply validate_resource_instance_with_io_tracks.
      intros value Hlt st path. by apply IH.
    + destruct (resource_type stat_type); [|apply framed_skip].
      destruct (_ && _); [apply framed_add_error|apply framed_skip].
    + apply validate_resource_instance_framed.
Qed.

End Tracking.

Lemma validate_resource_instance_io_tracks resolve relative_to str_of_value
    resource_obj file_path repo_root path_stack :
  tracks resolve relative_to str_of_value
    (validate_resource_instance_io resolve relative_to str_of_value resource_obj
       file_path repo_root path_stack)
    (validate_resource_instance resource_obj file_path repo_root path_stack).
Proof.
  apply validate_resource_instance_with_io_tracks.
  intros value _ st path. apply validate_value_io_tracks.
Qed.

Lemma reads_of_located file_path repo_root path_stack (new : list error) :
  Forall (located_under file_path repo_root path_stack) new ->
  flat_map (fun e => [Resolve (err_file e); Resolve (err_repo_root e)]) new
  = flat_map (fun _ => [Resolve file_path; Resolve repo_root]) new.
Proof.
  induction 1 as [|e new (Hfile & Hroot & _) _ IH]; simpl; [reflexivity|].
  by rewrite Hfile, Hroot, IH.
Qed.



